(** * otel-demo: the X-Ray trace-id formatter and the manually instrumented
      S3 handler

    Shallow embedding of

    - [convert_otel_trace_id_to_xray]  (python/main.py,
      python/manual-instrumentation.py, python/src/manual-instrumentation.py),
    - [aws_sdk_call_manual_instrumentation]
      (python/manual_instrumentation/main.py),
    - [aws_sdk_call_with_no_instrumentation]
      (python/manual-instrumentation.py, python/src/manual-instrumentation.py),

    together with the properties the specification states about them. *)

From Stdlib Require Import ZArith NArith Ascii String List Lia.
From Stdlib Require Import DecimalString.
From stdpp Require Import base gmap strings list.

(** ** Python strings *)

Module PyStr.

(** [s[:n]] for [n >= 0]. *)
Fixpoint take (n : nat) (s : string) : string :=
  match n, s with
  | S n', String c s' => String c (take n' s')
  | _, _ => EmptyString
  end.

(** [s[n:]] for [n >= 0]. *)
Fixpoint drop (n : nat) (s : string) : string :=
  match n, s with
  | S n', String _ s' => drop n' s'
  | _, _ => s
  end.

(** [c * n] for a one-character string [c]. *)
Fixpoint repeat (c : ascii) (n : nat) : string :=
  match n with
  | O => EmptyString
  | S n' => String c (repeat c n')
  end.

(** [s.count(c)] for a one-character string [c]. *)
Fixpoint count (c : ascii) (s : string) : nat :=
  match s with
  | EmptyString => 0
  | String a s' => (if Ascii.eqb a c then 1 else 0) + count c s'
  end.

(** [s.split(c)] for a one-character separator [c]. *)
Fixpoint split (c : ascii) (s : string) : list string :=
  match s with
  | EmptyString => [EmptyString]
  | String a s' =>
      if Ascii.eqb a c then EmptyString :: split c s'
      else match split c s' with
           | [] => [String a EmptyString]
           | w :: ws => String a w :: ws
           end
  end.

(** [s.removeprefix(p)], [None] when [p] is not a prefix of [s]. *)
Fixpoint strip_prefix (p s : string) : option string :=
  match p, s with
  | EmptyString, _ => Some s
  | String a p', String b s' =>
      if Ascii.eqb a b then strip_prefix p' s' else None
  | String _ _, EmptyString => None
  end.

(** [s.removesuffix(q)], [None] when [q] is not a suffix of [s]. *)
Definition strip_suffix (q s : string) : option string :=
  let k := String.length s - String.length q in
  if String.eqb (drop k s) q then Some (take k s) else None.

(** The double-quote character, [chr(34)]. *)
Definition dquote : string := String "034"%char EmptyString.

End PyStr.

(** ** Python's [format(n, "032x")] *)

Module PyFormat.

(** One lowercase hexadecimal digit. *)
Definition hex_digit (d : N) : ascii :=
  match d with
  | 0%N => "0" | 1%N => "1" | 2%N => "2" | 3%N => "3"
  | 4%N => "4" | 5%N => "5" | 6%N => "6" | 7%N => "7"
  | 8%N => "8" | 9%N => "9" | 10%N => "a" | 11%N => "b"
  | 12%N => "c" | 13%N => "d" | 14%N => "e" | _ => "f"
  end%char.

(** The digits of [n] in base 16, most significant first, without
    leading zeros ([0] is the single digit "0"); [fuel] bounds the
    number of digits produced. *)
Fixpoint hex_digits_fuel (fuel : nat) (n : N) : string :=
  match fuel with
  | O => EmptyString
  | S fuel' =>
      if (n <? 16)%N then String (hex_digit n) EmptyString
      else hex_digits_fuel fuel' (n / 16)
             +:+ String (hex_digit (n mod 16)) EmptyString
  end.

(** [format(n, "x")] for [n >= 0]: a number has at most one hexadecimal
    digit per bit, so the fuel below never runs out
    (see [hex_digits_fuel_enough]). *)
Definition hex_digits (n : N) : string :=
  hex_digits_fuel (S (N.to_nat (N.log2 n))) n.

(** Left padding with the fill character "0" up to [width]. *)
Definition zero_fill (width : nat) (s : string) : string :=
  PyStr.repeat "0" (width - String.length s) +:+ s.

(** ["{:032x}".format(x)]: lowercase hexadecimal, sign-aware zero
    padding to a minimal width of 32. *)
Definition format_032x (x : Z) : string :=
  let digits := hex_digits (Z.abs_N x) in
  if (x <? 0)%Z then String "-" (zero_fill 31 digits)
  else zero_fill 32 digits.

End PyFormat.

(** ** The constants of [opentelemetry.propagators.aws.aws_xray_propagator] *)

(** Modelled from the spec: the value of the imported constant
    [TRACE_ID_DELIMITER]; the segments are "joined by a single delimiter
    character ([-])". *)
Definition TRACE_ID_DELIMITER : string := "-".

(** Modelled from the spec: the value of the imported constant
    [TRACE_ID_FIRST_PART_LENGTH]; the first segment is "an 8-digit
    segment". *)
Definition TRACE_ID_FIRST_PART_LENGTH : nat := 8.

(** ** [convert_otel_trace_id_to_xray] *)

Section TraceIdFormatter.

(** The imported constant [TRACE_ID_VERSION], "a fixed one-byte hex
    constant" whose value the repository does not fix. *)
Variable TRACE_ID_VERSION : string.

(** The local [x_ray_trace_id] of the function. *)
Definition x_ray_trace_id (otel_trace_id_decimal : Z) : string :=
  let otel_trace_id_hex := PyFormat.format_032x otel_trace_id_decimal in
  String.concat TRACE_ID_DELIMITER
    [ TRACE_ID_VERSION;
      PyStr.take TRACE_ID_FIRST_PART_LENGTH otel_trace_id_hex;
      PyStr.drop TRACE_ID_FIRST_PART_LENGTH otel_trace_id_hex ].

(** The literal text around the placeholder of the format string
    ['{{"traceId": "{}"}}']. *)
Definition json_prefix : string :=
  "{" +:+ PyStr.dquote +:+ "traceId" +:+ PyStr.dquote +:+ ": "
      +:+ PyStr.dquote.
Definition json_suffix : string := PyStr.dquote +:+ "}".

Definition convert_otel_trace_id_to_xray (otel_trace_id_decimal : Z)
  : string :=
  json_prefix +:+ x_ray_trace_id otel_trace_id_decimal +:+ json_suffix.

End TraceIdFormatter.

(** ** Reading a vendor trace id back (the observer of the round trip) *)

Module Decode.

(** The fixed-width representation the specification speaks of: exactly
    [k] lowercase hexadecimal digits, the digit of weight [16^i] at
    distance [i] from the right end. *)
Fixpoint zero_padded_hex (k : nat) (n : N) : string :=
  match k with
  | O => EmptyString
  | S k' =>
      String (PyFormat.hex_digit ((n / 16 ^ N.of_nat k') mod 16))
             (zero_padded_hex k' n)
  end.

(** The lowercase hexadecimal digits in the order of their values. *)
Definition hex_alphabet : string := "0123456789abcdef".

(** The position of the first [c] in [s], counted from [from]. *)
Fixpoint position_from (from : N) (c : ascii) (s : string) : option N :=
  match s with
  | EmptyString => None
  | String a s' =>
      if Ascii.eqb a c then Some from else position_from (N.succ from) c s'
  end.

(** The value of one hexadecimal digit ([None] for any other
    character). *)
Definition digit_value (c : ascii) : option N :=
  position_from 0 c hex_alphabet.

(** [int(s, 16)] for a string of lowercase digits, continuing from the
    value [acc] of the digits already read. *)
Fixpoint hex_value_from (acc : N) (s : string) : option N :=
  match s with
  | EmptyString => Some acc
  | String c s' =>
      match digit_value c with
      | Some d => hex_value_from (16 * acc + d) s'
      | None => None
      end
  end.

Definition hex_value (s : string) : option N := hex_value_from 0 s.

(** The dash-separated segments of the id carried by a returned JSON
    literal: the text between [json_prefix] and [json_suffix], split at
    the delimiter.  [None] when the literal has another form. *)
Definition xray_segments (returned : string) : option (list string) :=
  match PyStr.strip_prefix json_prefix returned with
  | Some rest =>
      match PyStr.strip_suffix json_suffix rest with
      | Some id => Some (PyStr.split "-" id)
      | None => None
      end
  | None => None
  end.

(** The hexadecimal digits of a returned literal: its segments without
    the version, concatenated. *)
Definition hex_of_segments (segments : list string) : string :=
  match segments with
  | _version :: hexes => String.concat EmptyString hexes
  | [] => EmptyString
  end.

End Decode.

(** ** Python values, exceptions and outcomes *)

(** The values the handlers return to Flask: [None], or a dict literal
    (its keys in the order they are written) of strings and lists of
    strings. *)
Inductive PyItem : Type :=
| PyStr (s : string)
| PyStrList (items : list string).

Inductive PyValue : Type :=
| PyNone
| PyDict (items : list (string * PyItem)).

(** The exceptions that can travel through the handlers. *)
Inductive PyExc : Type :=
| KeyError (key : string)
    (** raised by a subscript [d[key]] on a dict without [key] *)
| SdkError (text : string)
    (** an instance of a subclass of [Exception] raised by boto3 or
        botocore, with [str(e) = text] *)
| NonException (text : string).
    (** an instance of [BaseException] that is no [Exception]
        ([KeyboardInterrupt], [SystemExit]) *)

(** [str(e)]; the text of a [KeyError] is the [repr] of its key. *)
Definition str_exc (e : PyExc) : string :=
  match e with
  | KeyError key => "'" +:+ key +:+ "'"
  | SdkError text => text
  | NonException text => text
  end.

(** [isinstance(e, Exception)]. *)
Definition is_Exception (e : PyExc) : bool :=
  match e with
  | KeyError _ | SdkError _ => true
  | NonException _ => false
  end.

Inductive Outcome (A : Type) : Type :=
| Returned (a : A)
| Raised (e : PyExc).
Arguments Returned {A} a.
Arguments Raised {A} e.

(** ** The telemetry the handlers write to *)

(** Attribute values. A duration [(t1 - t0).total_seconds() * 1000] is
    kept as the exact difference in microseconds, a timestamp
    [t.isoformat()] as the instant it renders. *)
Inductive AttrValue : Type :=
| VStr (s : string)
| VInt (n : Z)
| VBool (b : bool)
| VDurationMs (micros : Z)
| VIsoformat (instant : N).

Record Event : Type := {
  event_name : string;
  event_attributes : gmap string AttrValue }.

Inductive StatusCode : Type := UNSET | OK | ERROR.

Record Status : Type := {
  status_code : StatusCode;
  status_description : option string }.

Abbreviation SpanId := nat (only parsing).

Record Span : Type := {
  span_name : string;
  span_parent : option SpanId;
  span_start : N;
  span_attributes : gmap string AttrValue;
  span_events : list Event;
  span_exceptions : list PyExc;
  span_status : Status;
  span_end_calls : nat }.

Inductive LogLevel : Type := INFO | LOG_ERROR.

(** Everything an invocation can observe or change: the spans of the
    tracer (a span's id is its position), the span that is current in the
    context, the counter [aws_sdk_call_manual_instrumentation_count] with
    one series per attribute set, the records [s3_logger] emitted, and
    the wall clock in microseconds. *)
Record World : Type := {
  spans : list Span;
  current_span : option SpanId;
  counter : gmap (gmap string string) Z;
  log_records : list (LogLevel * string);
  clock : N }.

Definition with_spans (f : list Span → list Span) (w : World) : World :=
  {| spans := f (spans w); current_span := current_span w;
     counter := counter w; log_records := log_records w;
     clock := clock w |}.

Definition with_current_span (c : option SpanId) (w : World) : World :=
  {| spans := spans w; current_span := c; counter := counter w;
     log_records := log_records w; clock := clock w |}.

Definition with_counter
    (f : gmap (gmap string string) Z → gmap (gmap string string) Z)
    (w : World) : World :=
  {| spans := spans w; current_span := current_span w;
     counter := f (counter w); log_records := log_records w;
     clock := clock w |}.

Definition with_log_records
    (f : list (LogLevel * string) → list (LogLevel * string))
    (w : World) : World :=
  {| spans := spans w; current_span := current_span w;
     counter := counter w; log_records := f (log_records w);
     clock := clock w |}.

Definition with_clock (f : N → N) (w : World) : World :=
  {| spans := spans w; current_span := current_span w;
     counter := counter w; log_records := log_records w;
     clock := f (clock w) |}.

(** The value of one counter series; a series nobody added to reads 0. *)
Definition series (labels : gmap string string) (w : World) : Z :=
  default 0%Z (counter w !! labels).

(** ** Computations: state passing with exceptions *)

Definition Py (A : Type) : Type := World → Outcome A * World.

Definition ret {A} (a : A) : Py A := λ w, (Returned a, w).

Definition raise {A} (e : PyExc) : Py A := λ w, (Raised e, w).

Definition bind {A B} (m : Py A) (k : A → Py B) : Py B :=
  λ w, match m w with
       | (Returned a, w') => k a w'
       | (Raised e, w') => (Raised e, w')
       end.

Declare Scope py_scope.
Delimit Scope py_scope with py.
Notation "'let*' x ':=' m 'in' k" := (bind m (λ x, k))
  (at level 10, x name, m at level 100, k at level 200) : py_scope.
Notation "m '>>' k" := (bind m (λ _, k))
  (at level 100, k at level 200, right associativity) : py_scope.

(** [try: body  except Exception as e: handler(e)]. *)
Definition try_except_Exception {A} (body : Py A) (handler : PyExc → Py A)
  : Py A :=
  λ w, match body w with
       | (Returned a, w') => (Returned a, w')
       | (Raised e, w') =>
           if is_Exception e then handler e w' else (Raised e, w')
       end.

(** State changes that cannot fail. *)
Definition modify (f : World → World) : Py unit := λ w, (Returned tt, f w).

(** ** The tracer, the counter, the logger and the clock *)

Definition new_span (name : string) (parent : option SpanId) (now : N)
  : Span :=
  {| span_name := name; span_parent := parent; span_start := now;
     span_attributes := ∅; span_events := []; span_exceptions := [];
     span_status := {| status_code := UNSET; status_description := None |};
     span_end_calls := 0 |}.

Definition span_with_attribute (key : string) (v : AttrValue) (s : Span)
  : Span :=
  {| span_name := span_name s; span_parent := span_parent s;
     span_start := span_start s;
     span_attributes := <[key := v]> (span_attributes s);
     span_events := span_events s; span_exceptions := span_exceptions s;
     span_status := span_status s; span_end_calls := span_end_calls s |}.

Definition span_with_event (ev : Event) (s : Span) : Span :=
  {| span_name := span_name s; span_parent := span_parent s;
     span_start := span_start s; span_attributes := span_attributes s;
     span_events := span_events s ++ [ev];
     span_exceptions := span_exceptions s;
     span_status := span_status s; span_end_calls := span_end_calls s |}.

Definition span_with_exception (e : PyExc) (s : Span) : Span :=
  {| span_name := span_name s; span_parent := span_parent s;
     span_start := span_start s; span_attributes := span_attributes s;
     span_events := span_events s;
     span_exceptions := span_exceptions s ++ [e];
     span_status := span_status s; span_end_calls := span_end_calls s |}.

Definition span_with_status (st : Status) (s : Span) : Span :=
  {| span_name := span_name s; span_parent := span_parent s;
     span_start := span_start s; span_attributes := span_attributes s;
     span_events := span_events s; span_exceptions := span_exceptions s;
     span_status := st; span_end_calls := span_end_calls s |}.

Definition span_ended (s : Span) : Span :=
  {| span_name := span_name s; span_parent := span_parent s;
     span_start := span_start s; span_attributes := span_attributes s;
     span_events := span_events s; span_exceptions := span_exceptions s;
     span_status := span_status s;
     span_end_calls := S (span_end_calls s) |}.

(** [span.set_attribute(key, v)]. *)
Definition set_attribute (span : SpanId) (key : string) (v : AttrValue)
  : Py unit :=
  modify (with_spans (alter (span_with_attribute key v) span)).

(** [span.add_event(name, attributes)]. *)
Definition add_event (span : SpanId) (name : string)
    (attributes : gmap string AttrValue) : Py unit :=
  modify (with_spans (alter
    (span_with_event {| event_name := name;
                        event_attributes := attributes |}) span)).

(** [span.record_exception(e)]. *)
Definition record_exception (span : SpanId) (e : PyExc) : Py unit :=
  modify (with_spans (alter (span_with_exception e) span)).

(** [span.set_status(trace.Status(code, description))]. *)
Definition set_status (span : SpanId) (code : StatusCode)
    (description : string) : Py unit :=
  modify (with_spans (alter
    (span_with_status {| status_code := code;
                         status_description := Some description |}) span)).

(** [trace.get_current_span()]; [None] is the invalid span. *)
Definition get_current_span : Py (option SpanId) :=
  λ w, (Returned (current_span w), w).

(** The [span_id] of a span context: 0 for the invalid span. *)
Definition span_id_of (span : option SpanId) : N :=
  match span with
  | None => 0
  | Some i => N.of_nat (S i)
  end.

(** [with tracer.start_as_current_span(name) as span: body(span)].
    The span is started as a child of the current one and made current;
    when the block is left, by a return or by an exception, the previous
    span is current again and the span is ended; an exception goes on
    travelling.  What the SDK itself notes on the span being left when an
    exception passes is not part of the handler and is left out. *)
Definition start_as_current_span {A} (name : string)
    (body : SpanId → Py A) : Py A :=
  λ w,
    let span := length (spans w) in
    let previous := current_span w in
    let entered :=
      with_current_span (Some span)
        (with_spans (λ l, l ++ [new_span name previous (clock w)]) w) in
    match body span entered with
    | (result, w') =>
        (result,
         with_spans (alter span_ended span)
           (with_current_span previous w'))
    end.

(** [counter.add(amount, attributes)]. *)
Definition counter_add (amount : Z) (labels : gmap string string)
  : Py unit :=
  modify (with_counter
    (λ c, <[labels := (default 0 (c !! labels) + amount)%Z]> c)).

(** [s3_logger.info(msg)] and [s3_logger.error(msg)]; the root logger is
    set to [NOTSET], every record is emitted. *)
Definition s3_logger_info (msg : string) : Py unit :=
  modify (with_log_records (λ l, l ++ [(INFO, msg)])).
Definition s3_logger_error (msg : string) : Py unit :=
  modify (with_log_records (λ l, l ++ [(LOG_ERROR, msg)])).

(** [datetime.now()]. *)
Definition datetime_now : Py N := λ w, (Returned (clock w), w).

(** [(t1 - t0).total_seconds() * 1000]. *)
Definition duration_ms (t0 t1 : N) : AttrValue :=
  VDurationMs (Z.of_N t1 - Z.of_N t0).

(** [str(n)] for an [int]. *)
Definition str_int (n : N) : string :=
  NilZero.string_of_uint (N.to_uint n).

(** ** boto3 *)

(** What [s3.list_buckets()] returns: a dict whose ['Buckets'] is a list
    of dicts with the fields of a bucket. *)
Abbreviation Bucket := (gmap string string) (only parsing).
Abbreviation Response := (gmap string (list (gmap string string)))
  (only parsing).

Inductive S3Client : Type := S3ClientHandle.

(** The behaviour of the SDK during one invocation: whether
    [boto3.client('s3')] and [s3.list_buckets()] return or raise, and how
    long each takes. *)
Record Boto3 : Type := {
  client_result : Outcome S3Client;
  client_micros : N;
  list_buckets_result : Outcome Response;
  list_buckets_micros : N }.

Definition boto3_client (sdk : Boto3) : Py S3Client :=
  λ w, (client_result sdk, with_clock (N.add (client_micros sdk)) w).

Definition list_buckets (sdk : Boto3) (s3 : S3Client) : Py Response :=
  λ w, (list_buckets_result sdk,
        with_clock (N.add (list_buckets_micros sdk)) w).

(** [d[key]]. *)
Definition getitem {V} (d : gmap string V) (key : string) : Py V :=
  match d !! key with
  | Some v => ret v
  | None => raise (KeyError key)
  end.

(** [[f(x) for x in l]]. *)
Fixpoint comprehension {A B} (f : A → Py B) (l : list A) : Py (list B) :=
  match l with
  | [] => ret []
  | x :: l' =>
      (let* y := f x in
       let* ys := comprehension f l' in
       ret (y :: ys))%py
  end.

(** ** [aws_sdk_call_manual_instrumentation]
      (python/manual_instrumentation/main.py) *)

Definition aws_sdk_call_manual_instrumentation (sdk : Boto3) : Py PyValue :=
  (let* start_time := datetime_now in
   let* current_span := get_current_span in
   let parent_context := current_span in
   s3_logger_info
     ("Starting manual instrumentation for AWS SDK call Parent span: "
      +:+ str_int (span_id_of parent_context)) >>
   start_as_current_span "aws_s3_list_operation" (λ main_span,
     try_except_Exception
       (set_attribute main_span "operation.type" (VStr "aws_sdk_call") >>
        set_attribute main_span "language"
          (VStr "python-manual-instrumentation") >>
        set_attribute main_span "aws.service" (VStr "s3") >>
        set_attribute main_span "aws.operation" (VStr "list_buckets") >>
        set_attribute main_span "component" (VStr "boto3") >>
        add_event main_span "Operation initialized"
          {[ "timestamp" := VIsoformat start_time ]} >>
        let* s3 :=
          start_as_current_span "s3_client_setup" (λ client_span,
            set_attribute client_span "aws.service" (VStr "s3") >>
            set_attribute client_span "operation.phase"
              (VStr "client_initialization") >>
            add_event client_span "Starting S3 client initialization" ∅ >>
            let* s3 := boto3_client sdk in
            add_event client_span "S3 client initialized successfully" ∅ >>
            ret s3) in
        let* response :=
          start_as_current_span "s3_list_buckets_api_call" (λ api_span,
            set_attribute api_span "aws.service" (VStr "s3") >>
            set_attribute api_span "aws.operation" (VStr "list_buckets") >>
            set_attribute api_span "operation.phase"
              (VStr "api_execution") >>
            set_attribute api_span "http.method" (VStr "GET") >>
            add_event api_span "Starting API call to list S3 buckets" ∅ >>
            let* api_call_start := datetime_now in
            let* response := list_buckets sdk s3 in
            let* api_call_end := datetime_now in
            let api_duration := duration_ms api_call_start api_call_end in
            let* buckets := getitem response "Buckets" in
            let bucket_count := Z.of_nat (length buckets) in
            set_attribute api_span "aws.s3.bucket_count"
              (VInt bucket_count) >>
            set_attribute api_span "operation.duration_ms" api_duration >>
            add_event api_span "API call completed successfully"
              {[ "bucket_count" := VInt bucket_count;
                 "duration_ms" := api_duration ]} >>
            ret response) in
        let* bucket_names :=
          start_as_current_span "response_processing" (λ processing_span,
            set_attribute processing_span "operation.phase"
              (VStr "data_processing") >>
            set_attribute processing_span "data.type"
              (VStr "s3_bucket_list") >>
            add_event processing_span "Starting response data processing"
              ∅ >>
            let* buckets := getitem response "Buckets" in
            let* bucket_names :=
              comprehension (λ bucket, getitem bucket "Name") buckets in
            set_attribute processing_span "processed.bucket_count"
              (VInt (Z.of_nat (length bucket_names))) >>
            add_event processing_span "Response processing completed"
              {[ "processed_buckets" :=
                   VInt (Z.of_nat (length bucket_names)) ]} >>
            ret bucket_names) in
        let* end_time := datetime_now in
        let total_duration := duration_ms start_time end_time in
        set_attribute main_span "operation.total_duration_ms"
          total_duration >>
        set_attribute main_span "operation.success" (VBool true) >>
        add_event main_span "Operation completed successfully"
          {[ "total_duration_ms" := total_duration;
             "buckets_found" := VInt (Z.of_nat (length bucket_names));
             "end_timestamp" := VIsoformat end_time ]} >>
        counter_add 1 {[ "operation" := "list_buckets" ]} >>
        ret (PyDict
               [ ("message", PyStr "Listed S3 buckets successfully");
                 ("buckets", PyStrList bucket_names) ]))
       (λ e,
        record_exception main_span e >>
        set_status main_span ERROR (str_exc e) >>
        s3_logger_error ("Error listing S3 buckets: " +:+ str_exc e) >>
        counter_add 1
          {[ "operation" := "list_buckets"; "status" := "error" ]} >>
        ret (PyDict
               [ ("error", PyStr (str_exc e));
                 ("message", PyStr "Failed to list S3 buckets") ]))))%py.

(** ** [aws_sdk_call_with_no_instrumentation]
      (python/manual-instrumentation.py, python/src/manual-instrumentation.py)

    The body ends after the assignment of [response]: the function
    returns [None]. *)

Definition aws_sdk_call_with_no_instrumentation (sdk : Boto3)
  : Py PyValue :=
  (let* s3 := boto3_client sdk in
   let* response := list_buckets sdk s3 in
   ret PyNone)%py.

(** ** Observations on results and worlds *)

(** The two shapes of a result: [{message, buckets}] and
    [{error, message}]. *)
Definition is_success_shape (v : PyValue) : bool :=
  match v with
  | PyDict [ ("message", PyStr _); ("buckets", PyStrList _) ] => true
  | _ => false
  end.

Definition is_error_shape (v : PyValue) : bool :=
  match v with
  | PyDict [ ("error", PyStr _); ("message", PyStr _) ] => true
  | _ => false
  end.

(** The attribute sets of the two counter series. *)
Definition success_labels : gmap string string :=
  {[ "operation" := "list_buckets" ]}.
Definition error_labels : gmap string string :=
  {[ "operation" := "list_buckets"; "status" := "error" ]}.

(** A series is error-labelled when its attribute set carries
    [status = "error"]. *)
Definition error_labelled (labels : gmap string string) : Prop :=
  labels !! "status" = Some "error".

(** The number of [end()] calls each span has received, by span id. *)
Definition end_calls (w : World) : list nat :=
  span_end_calls <$> spans w.

(** Whether an event with the given name was added to a span. *)
Definition has_event (name : string) (s : Span) : bool :=
  existsb (λ ev, String.eqb (event_name ev) name) (span_events s).

(** What the wrapped unit of work amounts to for the handler: the list of
    bucket names, or the first exception on the way to it. *)
Definition wrapped_call (sdk : Boto3) : Outcome (list string) :=
  match client_result sdk with
  | Raised e => Raised e
  | Returned _ =>
      match list_buckets_result sdk with
      | Raised e => Raised e
      | Returned response =>
          match response !! "Buckets" with
          | None => Raised (KeyError "Buckets")
          | Some buckets =>
              match mapM (λ bucket : gmap string string, bucket !! "Name")
                         buckets with
              | None => Raised (KeyError "Name")
              | Some names => Returned names
              end
          end
      end
  end.

(** Whether an outcome of the SDK is a return or an instance of
    [Exception], the class the handler catches. *)
Definition outcome_is_Exception {A} (o : Outcome A) : bool :=
  match o with
  | Returned _ => true
  | Raised e => is_Exception e
  end.

(** The root span as the handler leaves it after the initial attributes
    and the "Operation initialized" event. *)
Definition root_initialized (parent : option SpanId) (start : N) : Span :=
  span_with_event
    {| event_name := "Operation initialized";
       event_attributes := {[ "timestamp" := VIsoformat start ]} |}
    (span_with_attribute "component" (VStr "boto3")
    (span_with_attribute "aws.operation" (VStr "list_buckets")
    (span_with_attribute "aws.service" (VStr "s3")
    (span_with_attribute "language" (VStr "python-manual-instrumentation")
    (span_with_attribute "operation.type" (VStr "aws_sdk_call")
    (new_span "aws_s3_list_operation" parent start)))))).

(** The root span of an invocation that completed at [finish] with the
    bucket names [names]. *)
Definition root_completed (parent : option SpanId) (start finish : N)
    (names : list string) : Span :=
  span_ended
    (span_with_event
       {| event_name := "Operation completed successfully";
          event_attributes :=
            {[ "total_duration_ms" := duration_ms start finish;
               "buckets_found" := VInt (Z.of_nat (length names));
               "end_timestamp" := VIsoformat finish ]} |}
    (span_with_attribute "operation.success" (VBool true)
    (span_with_attribute "operation.total_duration_ms"
       (duration_ms start finish)
    (root_initialized parent start)))).

(** The root span of an invocation whose exception [e] the handler
    caught. *)
Definition root_failed (parent : option SpanId) (start : N) (e : PyExc)
  : Span :=
  span_ended
    (span_with_status
       {| status_code := ERROR; status_description := Some (str_exc e) |}
    (span_with_exception e (root_initialized parent start))).

(** The root span of an invocation left by an exception the handler does
    not catch. *)
Definition root_escaped (parent : option SpanId) (start : N) : Span :=
  span_ended (root_initialized parent start).

(** The record the handler logs before it opens the root span. *)
Definition starting_record (w : World) : LogLevel * string :=
  (INFO,
   "Starting manual instrumentation for AWS SDK call Parent span: "
   +:+ str_int (span_id_of (current_span w))).

(** A computation is balanced when it ends every span it starts exactly
    once and touches the [end()] count of no other span: the counts after
    it are the counts before it followed by a 1 for each span it started,
    and the span that was current is current again. *)
Definition balanced {A} (m : Py A) : Prop :=
  ∀ w, ∃ started : nat,
    end_calls (snd (m w)) = end_calls w ++ replicate started 1
    ∧ current_span (snd (m w)) = current_span w.

(** A world and SDK behaviours to try the handlers on. *)
Definition fresh_world : World :=
  {| spans := []; current_span := None; counter := ∅;
     log_records := []; clock := 1000 |}.

Definition bucket_named (name : string) : gmap string string :=
  {[ "Name" := name; "CreationDate" := "2024-01-01" ]}.

Definition sdk_listing (names : list string) : Boto3 :=
  {| client_result := Returned S3ClientHandle; client_micros := 10;
     list_buckets_result :=
       Returned {[ "Buckets" := bucket_named <$> names ]};
     list_buckets_micros := 250 |}.

Definition sdk_failing (e : PyExc) : Boto3 :=
  {| client_result := Returned S3ClientHandle; client_micros := 10;
     list_buckets_result := Raised e;
     list_buckets_micros := 250 |}.

(** ** [aws_sdk_call_with_auto_instrumentation]
      (python/auto_instrumentation/main.py, python/main.py)

    No span, counter or logger is touched, and nothing is caught. *)

Definition aws_sdk_call_with_auto_instrumentation (sdk : Boto3)
  : Py PyValue :=
  (let* s3 := boto3_client sdk in
   let* response := list_buckets sdk s3 in
   let* buckets := getitem response "Buckets" in
   let* bucket_names :=
     comprehension (λ bucket, getitem bucket "Name") buckets in
   ret (PyDict
          [ ("message", PyStr "Listed S3 buckets successfully");
            ("buckets", PyStrList bucket_names) ]))%py.

(** ** [testingId] and [aws_sdk_call_with_instrumentation]
      (python/src/manual-instrumentation.py) *)

(** The module-level [testingId]: ["_" + os.environ["INSTANCE_ID"]] when
    the variable is set to a non-empty text, the empty string
    otherwise. *)
Definition testingId (INSTANCE_ID : option string) : string :=
  match INSTANCE_ID with
  | Some id => if String.eqb id EmptyString then EmptyString else "_" +:+ id
  | None => EmptyString
  end.

(** The handler with one span around both SDK calls. [trace_id_of] is the
    trace id the tracer gave a span, read by
    [span.get_span_context().trace_id]; the version constant and the
    environment variable are parameters. Nothing is caught here either. *)
Definition aws_sdk_call_with_instrumentation (TRACE_ID_VERSION : string)
    (INSTANCE_ID : option string) (trace_id_of : SpanId → Z) (sdk : Boto3)
  : Py PyValue :=
  start_as_current_span "list_s3_buckets" (λ span,
    (set_attribute span "language"
       (VStr "python-manual-instrumentation") >>
     set_attribute span "aws.service" (VStr "s3") >>
     set_attribute span "aws.operation" (VStr "list_buckets") >>
     add_event span "Starting to list S3 buckets" ∅ >>
     let* s3 := boto3_client sdk in
     let* response := list_buckets sdk s3 in
     let* buckets := getitem response "Buckets" in
     let* bucket_names :=
       comprehension (λ bucket, getitem bucket "Name") buckets in
     ret (PyDict
            [ ("message", PyStr "Listed S3 buckets successfully");
              ("buckets", PyStrList bucket_names);
              ("traceId",
               PyStr (convert_otel_trace_id_to_xray TRACE_ID_VERSION
                        (trace_id_of span)
                      +:+ testingId INSTANCE_ID)) ]))%py).

(** ** Further observations *)

(** The series the instrumented handler adds to: the success series when
    the wrapped call returns, the error series when it raises an
    [Exception], none when what it raises is not caught. *)
Definition counted_series (sdk : Boto3) : option (gmap string string) :=
  match wrapped_call sdk with
  | Returned _ => Some success_labels
  | Raised e => if is_Exception e then Some error_labels else None
  end.

(** The child spans the instrumented handler starts, by name and in
    order, for a behaviour of the SDK: each phase is entered when the one
    before it was left without an exception. *)
Definition phases_reached (sdk : Boto3) : list string :=
  match client_result sdk with
  | Raised _ => [ "s3_client_setup" ]
  | Returned _ =>
      match list_buckets_result sdk with
      | Raised _ => [ "s3_client_setup"; "s3_list_buckets_api_call" ]
      | Returned response =>
          match response !! "Buckets" with
          | None => [ "s3_client_setup"; "s3_list_buckets_api_call" ]
          | Some _ =>
              [ "s3_client_setup"; "s3_list_buckets_api_call";
                "response_processing" ]
          end
      end
  end.

(** What both SDK calls amount to when nothing is read from the
    response: the first exception, if any. *)
Definition sdk_calls (sdk : Boto3) : Outcome unit :=
  match client_result sdk with
  | Raised e => Raised e
  | Returned _ =>
      match list_buckets_result sdk with
      | Raised e => Raised e
      | Returned _ => Returned tt
      end
  end.

(** Whether two worlds hold the same telemetry (the clock apart). *)
Definition same_telemetry (w w' : World) : Prop :=
  spans w' = spans w ∧ current_span w' = current_span w
  ∧ counter w' = counter w ∧ log_records w' = log_records w.

(** ** What Flask makes of a handler

    Flask is a library the handlers are registered with, not code of the
    repository; the rule below is the one it documents for what a view
    function hands back. *)




(** * Properties *)

(** ** The definitions on concrete inputs *)

Example convert_ff :
  convert_otel_trace_id_to_xray "1" 255
  = json_prefix +:+ "1-00000000-0000000000000000000000ff" +:+ json_suffix.
Proof. reflexivity. Qed.

Example segments_ff :
  Decode.xray_segments (convert_otel_trace_id_to_xray "1" 255)
  = Some ["1"; "00000000"; "0000000000000000000000ff"].
Proof. reflexivity. Qed.

(** Split as it is returned, the string keeps the text of the JSON
    literal on its first and last piece; [Decode.xray_segments] takes the
    id out of the literal first. *)
Example split_returned_ff :
  PyStr.split "-" (convert_otel_trace_id_to_xray "1" 255)
  = [ json_prefix +:+ "1"; "00000000";
      "0000000000000000000000ff" +:+ json_suffix ].
Proof. reflexivity. Qed.

(** Beyond 128 bits the text has more than 32 digits, and a negative
    number carries its sign: the 128-bit range matters. *)
Example format_2_128 :
  String.length (PyFormat.format_032x (2 ^ 128)) = 33.
Proof. reflexivity. Qed.

Example format_negative :
  PyFormat.format_032x (-255) = "-00000000000000000000000000000ff".
Proof. reflexivity. Qed.

Example run_listing_ends :
  end_calls (snd (aws_sdk_call_manual_instrumentation
                    (sdk_listing ["a"; "b"; "c"]) fresh_world))
  = [1; 1; 1; 1].
Proof. vm_compute. reflexivity. Qed.

Example run_failing_ends :
  end_calls (snd (aws_sdk_call_manual_instrumentation
                    (sdk_failing (SdkError "access denied")) fresh_world))
  = [1; 1; 1].
Proof. vm_compute. reflexivity. Qed.

(** An exception that is no [Exception] passes the handler. *)
Example run_interrupted :
  fst (aws_sdk_call_manual_instrumentation
         (sdk_failing (NonException "KeyboardInterrupt")) fresh_world)
  = Raised (NonException "KeyboardInterrupt").
Proof. vm_compute. reflexivity. Qed.

(** ** Python strings *)

Module PyStrFacts.
Import PyStr.

Lemma app_cons x (a b : string) : String x a +:+ b = String x (a +:+ b).
Proof. reflexivity. Qed.

Lemma app_empty_l (b : string) : EmptyString +:+ b = b.
Proof. reflexivity. Qed.

Ltac str_simpl := simpl; rewrite ?app_cons, ?app_empty_l; simpl.

Lemma app_assoc (a b c : string) : (a +:+ b) +:+ c = a +:+ b +:+ c.
Proof. induction a as [|x a IH]; str_simpl; congruence. Qed.

Lemma app_empty_r (a : string) : a +:+ EmptyString = a.
Proof. induction a as [|x a IH]; str_simpl; congruence. Qed.

Lemma length_app (a b : string) :
  String.length (a +:+ b) = String.length a + String.length b.
Proof. induction a as [|x a IH]; str_simpl; congruence. Qed.

Lemma length_cons c s : String.length (String c s) = S (String.length s).
Proof. reflexivity. Qed.

Lemma count_cons_ne c a s : Ascii.eqb a c = false → count c (String a s) = count c s.
Proof. intros H. simpl. by rewrite H. Qed.

Lemma count_cons_eq c s : count c (String c s) = S (count c s).
Proof. simpl. by rewrite Ascii.eqb_refl. Qed.

Lemma length_repeat c n : String.length (repeat c n) = n.
Proof. induction n as [|n IH]; simpl; congruence. Qed.

Lemma take_drop n s : take n s +:+ drop n s = s.
Proof.
  revert s; induction n as [|n IH]; intros [|c s]; str_simpl; try done.
  f_equal; apply IH.
Qed.

Lemma length_take n s :
  String.length (take n s) = n `min` String.length s.
Proof.
  revert s; induction n as [|n IH]; intros [|c s]; simpl; try done.
  f_equal; apply IH.
Qed.

Lemma length_drop n s : String.length (drop n s) = String.length s - n.
Proof.
  revert s; induction n as [|n IH]; intros [|c s]; simpl; try done.
Qed.

Lemma take_app_length a b : take (String.length a) (a +:+ b) = a.
Proof.
  induction a as [|x a IH]; str_simpl; [by destruct b | congruence].
Qed.

Lemma drop_app_length a b : drop (String.length a) (a +:+ b) = b.
Proof. induction a as [|x a IH]; str_simpl; done. Qed.

Lemma count_app c a b : count c (a +:+ b) = count c a + count c b.
Proof. induction a as [|x a IH]; str_simpl; [done | rewrite IH; lia]. Qed.

Lemma count_repeat_ne c d n : c ≠ d → count c (repeat d n) = 0.
Proof.
  intros Hne. induction n as [|n IH]; simpl; [done |].
  rewrite IH. destruct (Ascii.eqb_spec d c); [congruence | done].
Qed.

Lemma count_take_drop c n s :
  count c (take n s) + count c (drop n s) = count c s.
Proof. by rewrite <- count_app, take_drop. Qed.

(** A string without the separator is one piece. *)
Lemma split_none c s : count c s = 0 → split c s = [s].
Proof.
  induction s as [|a s IH]; simpl; [done |].
  destruct (Ascii.eqb a c); simpl; [done |].
  intros H. by rewrite IH.
Qed.

(** The first piece ends at the first separator. *)
Lemma split_app c a b :
  count c a = 0 → split c (a +:+ String c b) = a :: split c b.
Proof.
  induction a as [|x a IH]; str_simpl.
  - intros _. by rewrite Ascii.eqb_refl.
  - destruct (Ascii.eqb x c); simpl; [done |].
    intros H. by rewrite IH.
Qed.

Lemma strip_prefix_app p s : strip_prefix p (p +:+ s) = Some s.
Proof.
  induction p as [|a p IH]; str_simpl; [by destruct s |].
  by rewrite Ascii.eqb_refl.
Qed.

Lemma strip_suffix_app q s : strip_suffix q (s +:+ q) = Some s.
Proof.
  unfold strip_suffix. rewrite length_app.
  replace (String.length s + String.length q - String.length q)
    with (String.length s) by lia.
  by rewrite drop_app_length, take_app_length, String.eqb_refl.
Qed.

End PyStrFacts.

(** ** Hexadecimal formatting *)

Module PyFormatFacts.
Import PyStr PyFormat Decode PyStrFacts.

Local Open Scope N_scope.

Ltac digit_cases d :=
  destruct d as [|d]; [| do 4 (try destruct d as [d|d|])].

Lemma digit_value_hex_digit d :
  d < 16 → digit_value (hex_digit d) = Some d.
Proof. intros H. digit_cases d; first [reflexivity | lia]. Qed.

Lemma hex_digit_not_dash d : Ascii.eqb (hex_digit d) "-" = false.
Proof. digit_cases d; reflexivity. Qed.

Lemma pow16_succ k : 16 ^ N.of_nat (S k) = 16 * 16 ^ N.of_nat k.
Proof. by rewrite Nat2N.inj_succ, N.pow_succ_r'. Qed.

Lemma div16_lt n k : n < 16 ^ N.of_nat (S k) → n / 16 < 16 ^ N.of_nat k.
Proof.
  rewrite pow16_succ. intros H. by apply N.Div0.div_lt_upper_bound.
Qed.

Lemma length_zero_padded_hex k n :
  String.length (zero_padded_hex k n) = k.
Proof. induction k as [|k IH]; simpl; congruence. Qed.

Lemma count_dash_zero_padded_hex k n :
  count "-" (zero_padded_hex k n) = 0%nat.
Proof.
  induction k as [|k IH]; simpl; [done |].
  by rewrite hex_digit_not_dash, IH.
Qed.

(** The fixed-width digits, read from the least significant end. *)
Lemma zero_padded_hex_snoc k n :
  zero_padded_hex (S k) n
  = zero_padded_hex k (n / 16) +:+ String (hex_digit (n mod 16)) EmptyString.
Proof.
  induction k as [|k IH].
  - simpl. by rewrite N.div_1_r.
  - change (zero_padded_hex (S (S k)) n)
      with (String (hex_digit ((n / 16 ^ N.of_nat (S k)) mod 16))
              (zero_padded_hex (S k) n)).
    rewrite IH. simpl zero_padded_hex at 2. rewrite app_cons.
    by rewrite pow16_succ, N.Div0.div_div.
Qed.

Lemma zero_padded_hex_0 k : zero_padded_hex k 0 = repeat "0" k.
Proof.
  induction k as [|k IH]; simpl; [done |].
  by rewrite ?N.Div0.div_0_l, IH.
Qed.

Lemma zero_fill_snoc k s c :
  zero_fill (S k) (s +:+ String c EmptyString)
  = zero_fill k s +:+ String c EmptyString.
Proof.
  unfold zero_fill. rewrite length_app. simpl String.length.
  replace (S k - (String.length s + 1))%nat
    with (k - String.length s)%nat by lia.
  by rewrite app_assoc.
Qed.

(** With enough fuel, zero filling the digits gives the fixed-width
    representation. *)
Lemma zero_fill_hex_digits_fuel fuel k n :
  n < 16 ^ N.of_nat (S fuel) → n < 16 ^ N.of_nat (S k) →
  zero_fill (S k) (hex_digits_fuel (S fuel) n) = zero_padded_hex (S k) n.
Proof.
  revert k n. induction fuel as [|fuel IH]; intros k n Hf Hk.
  - change (16 ^ N.of_nat 1) with 16 in Hf.
    simpl hex_digits_fuel. rewrite (proj2 (N.ltb_lt _ _) Hf).
    rewrite zero_padded_hex_snoc.
    rewrite N.div_small, N.mod_small, zero_padded_hex_0 by done.
    unfold zero_fill. simpl String.length. by replace (S k - 1)%nat with k by lia.
  - change (hex_digits_fuel (S (S fuel)) n)
      with (if n <? 16 then String (hex_digit n) EmptyString
            else hex_digits_fuel (S fuel) (n / 16)
                   +:+ String (hex_digit (n mod 16)) EmptyString).
    rewrite zero_padded_hex_snoc.
    destruct (N.ltb_spec n 16) as [Hlt|Hge].
    + rewrite N.div_small, N.mod_small, zero_padded_hex_0 by done.
      unfold zero_fill. simpl String.length. by replace (S k - 1)%nat with k by lia.
    + destruct k as [|k].
      { change (16 ^ N.of_nat 1) with 16 in Hk. lia. }
      rewrite zero_fill_snoc. f_equal.
      apply IH; by apply div16_lt.
Qed.

(** A number has fewer hexadecimal digits than bits, so the fuel of
    [hex_digits] is enough. *)
Lemma hex_digits_fuel_enough n :
  n < 16 ^ N.of_nat (S (N.to_nat (N.log2 n))).
Proof.
  rewrite Nat2N.inj_succ, N2Nat.id.
  destruct (N.eq_dec n 0) as [->|Hn]; [done |].
  eapply N.lt_le_trans; [apply N.log2_spec; lia |].
  apply N.pow_le_mono_l. lia.
Qed.

Lemma zero_fill_hex_digits k n :
  n < 16 ^ N.of_nat (S k) →
  zero_fill (S k) (hex_digits n) = zero_padded_hex (S k) n.
Proof.
  intros H. apply zero_fill_hex_digits_fuel; [|done].
  apply hex_digits_fuel_enough.
Qed.

(** On the 128-bit range [format_032x] is the 32-digit representation. *)
Lemma format_032x_in_range (x : Z) :
  (0 ≤ x < 2 ^ 128)%Z →
  format_032x x = zero_padded_hex 32 (Z.to_N x).
Proof.
  intros [H0 H1]. unfold format_032x.
  destruct (Z.ltb_spec x 0) as [?|_]; [lia |].
  replace (Z.abs_N x) with (Z.to_N x) by (destruct x; done || lia).
  apply zero_fill_hex_digits.
  change (16 ^ N.of_nat 32) with (Z.to_N (2 ^ 128)). lia.
Qed.

(** Reading the fixed-width digits gives the number back. *)
Lemma hex_value_from_zero_padded_hex k n acc :
  hex_value_from acc (zero_padded_hex k n)
  = Some (acc * 16 ^ N.of_nat k + n mod 16 ^ N.of_nat k).
Proof.
  revert acc. induction k as [|k IH]; intros acc.
  - simpl. f_equal. rewrite N.mod_1_r. lia.
  - simpl zero_padded_hex. simpl hex_value_from.
    rewrite digit_value_hex_digit by (apply N.mod_lt; lia).
    rewrite IH. f_equal. rewrite pow16_succ.
    rewrite (N.mul_comm 16 (16 ^ N.of_nat k)).
    rewrite N.Div0.mod_mul_r. lia.
Qed.

Lemma hex_value_zero_padded_hex k n :
  n < 16 ^ N.of_nat k → hex_value (zero_padded_hex k n) = Some n.
Proof.
  intros H. unfold hex_value.
  rewrite hex_value_from_zero_padded_hex, N.mod_small by done.
  f_equal; lia.
Qed.

End PyFormatFacts.

(** ** The trace-id formatter *)

Section TraceIdFormatterFacts.
Import PyStr PyFormat Decode PyStrFacts PyFormatFacts.

Variable version : string.

Lemma x_ray_trace_id_unfold x :
  x_ray_trace_id version x
  = version +:+ String "-" (take 8 (format_032x x)
      +:+ String "-" (drop 8 (format_032x x))).
Proof. reflexivity. Qed.

Lemma length_json_wrapper :
  String.length json_prefix = 13 ∧ String.length json_suffix = 2.
Proof. split; reflexivity. Qed.

Lemma length_convert x :
  String.length (convert_otel_trace_id_to_xray version x)
  = String.length (x_ray_trace_id version x) + 15.
Proof.
  unfold convert_otel_trace_id_to_xray. rewrite !length_app.
  destruct length_json_wrapper as [-> ->]. lia.
Qed.

Lemma length_x_ray_trace_id x :
  String.length (x_ray_trace_id version x)
  = String.length version + 2 + String.length (format_032x x).
Proof.
  rewrite x_ray_trace_id_unfold, length_app, length_cons, length_app,
    length_cons, length_take, length_drop. lia.
Qed.

Lemma count_dash_json_wrapper :
  count "-" json_prefix = 0 ∧ count "-" json_suffix = 0.
Proof. split; reflexivity. Qed.

Lemma count_dash_x_ray_trace_id x :
  count "-" (x_ray_trace_id version x)
  = count "-" version + 2 + count "-" (format_032x x).
Proof.
  rewrite x_ray_trace_id_unfold, count_app, count_cons_eq, count_app,
    count_cons_eq.
  rewrite <- (count_take_drop "-" 8 (format_032x x)). lia.
Qed.

(** The segments of a returned literal, for a version without dash and
    a 32-digit hexadecimal text. *)
Lemma xray_segments_convert x :
  count "-" version = 0 →
  count "-" (format_032x x) = 0 →
  xray_segments (convert_otel_trace_id_to_xray version x)
  = Some [version; take 8 (format_032x x); drop 8 (format_032x x)].
Proof.
  intros Hv Hx. unfold xray_segments, convert_otel_trace_id_to_xray.
  rewrite strip_prefix_app, strip_suffix_app, x_ray_trace_id_unfold.
  pose proof (count_take_drop "-" 8 (format_032x x)) as Hsum.
  rewrite split_app by done.
  rewrite split_app by lia.
  rewrite split_none by lia. done.
Qed.

End TraceIdFormatterFacts.

(** C4. For every trace id [x] of the 128-bit range, the hexadecimal
    segments carried by [convert_otel_trace_id_to_xray x], read inside the
    JSON literal the function returns and without the version segment and
    the delimiters, concatenate to the 32-digit zero-padded lowercase
    hexadecimal representation of [x], which reads back as [x]. The
    version is any text without the delimiter. *)
Theorem trace_id_round_trip (version : string) (x : Z) :
  (0 ≤ x < 2 ^ 128)%Z →
  PyStr.count "-" version = 0 →
  ∃ first rest : string,
    Decode.xray_segments (convert_otel_trace_id_to_xray version x)
      = Some [version; first; rest]
    ∧ String.length first = 8 ∧ String.length rest = 24
    ∧ Decode.hex_of_segments [version; first; rest]
      = Decode.zero_padded_hex 32 (Z.to_N x)
    ∧ Decode.hex_value (Decode.hex_of_segments [version; first; rest])
      = Some (Z.to_N x).
Proof.
  intros Hx Hv.
  pose proof (PyFormatFacts.format_032x_in_range x Hx) as Hfmt.
  exists (PyStr.take 8 (PyFormat.format_032x x)),
         (PyStr.drop 8 (PyFormat.format_032x x)).
  assert (Decode.hex_of_segments
            [version; PyStr.take 8 (PyFormat.format_032x x);
             PyStr.drop 8 (PyFormat.format_032x x)]
          = Decode.zero_padded_hex 32 (Z.to_N x)) as Hcat.
  { unfold Decode.hex_of_segments, String.concat.
    change (?a ++ EmptyString ++ ?b)%string with (a +:+ b).
    by rewrite PyStrFacts.take_drop. }
  split; [|split; [|split; [|split]]].
  - apply xray_segments_convert; [done |].
    rewrite Hfmt. apply PyFormatFacts.count_dash_zero_padded_hex.
  - rewrite PyStrFacts.length_take, Hfmt,
      PyFormatFacts.length_zero_padded_hex. done.
  - rewrite PyStrFacts.length_drop, Hfmt,
      PyFormatFacts.length_zero_padded_hex. done.
  - done.
  - rewrite Hcat. apply PyFormatFacts.hex_value_zero_padded_hex.
    change (16 ^ N.of_nat 32)%N with (Z.to_N (2 ^ 128)). lia.
Qed.

Lemma trace_id_round_trip_witness :
  ∃ first rest : string,
    Decode.xray_segments
      (convert_otel_trace_id_to_xray "1" 0x5759e988bd862e3fe1be46a994272793)
      = Some ["1"; first; rest]
    ∧ String.length first = 8 ∧ String.length rest = 24
    ∧ Decode.hex_of_segments ["1"; first; rest]
      = Decode.zero_padded_hex 32
          (Z.to_N 0x5759e988bd862e3fe1be46a994272793)
    ∧ Decode.hex_value (Decode.hex_of_segments ["1"; first; rest])
      = Some (Z.to_N 0x5759e988bd862e3fe1be46a994272793).
Proof.
  apply (trace_id_round_trip "1" 0x5759e988bd862e3fe1be46a994272793).
  - split; [lia | reflexivity].
  - reflexivity.
Defined.

(** C5 (as the code has it). [convert_otel_trace_id_to_xray 0] is the JSON
    literal around the id made of the version, a dash, eight zeros, a
    dash and twenty-four zeros: no leading zero is dropped. *)
Theorem format_zero_json (version : string) :
  convert_otel_trace_id_to_xray version 0
  = json_prefix
      +:+ (version +:+ "-00000000-000000000000000000000000")
      +:+ json_suffix.
Proof. reflexivity. Qed.

(** C5 as stated fails: whatever the version, the string returned for 0
    is not the bare id. *)
Lemma format_zero_not_bare :
  ¬ ∃ version : string,
      convert_otel_trace_id_to_xray version 0
      = version +:+ "-00000000-000000000000000000000000".
Proof.
  intros [version H]. apply (f_equal String.length) in H.
  rewrite length_convert, length_x_ray_trace_id,
    PyStrFacts.length_app in H.
  simpl in H. lia.
Qed.

(** C6 (as the code has it). For a 128-bit trace id the id inside the
    returned literal has [len(version) + 1 + 8 + 1 + 24] characters, the
    returned string has the 15 characters of the JSON literal more, and,
    the version being free of dashes, the returned string has exactly two
    dashes. *)
Theorem format_length_and_delimiters (version : string) (x : Z) :
  (0 ≤ x < 2 ^ 128)%Z →
  PyStr.count "-" version = 0 →
  String.length (x_ray_trace_id version x)
    = String.length version + 1 + 8 + 1 + 24
  ∧ String.length (convert_otel_trace_id_to_xray version x)
    = String.length version + 1 + 8 + 1 + 24 + 15
  ∧ PyStr.count "-" (convert_otel_trace_id_to_xray version x) = 2.
Proof.
  intros Hx Hv.
  pose proof (PyFormatFacts.format_032x_in_range x Hx) as Hfmt.
  assert (String.length (x_ray_trace_id version x)
          = String.length version + 1 + 8 + 1 + 24) as Hlen.
  { rewrite length_x_ray_trace_id, Hfmt,
      PyFormatFacts.length_zero_padded_hex. lia. }
  split; [done |]. split.
  - rewrite length_convert, Hlen. done.
  - unfold convert_otel_trace_id_to_xray.
    rewrite !PyStrFacts.count_app, count_dash_x_ray_trace_id, Hfmt,
      PyFormatFacts.count_dash_zero_padded_hex, Hv.
    destruct count_dash_json_wrapper as [-> ->]. done.
Qed.

Lemma format_length_and_delimiters_witness :
  String.length (x_ray_trace_id "1" 255) = String.length "1" + 1 + 8 + 1 + 24
  ∧ String.length (convert_otel_trace_id_to_xray "1" 255)
    = String.length "1" + 1 + 8 + 1 + 24 + 15
  ∧ PyStr.count "-" (convert_otel_trace_id_to_xray "1" 255) = 2.
Proof.
  apply (format_length_and_delimiters "1" 255).
  - split; [lia | reflexivity].
  - reflexivity.
Defined.

(** C6 as stated fails: whatever the version, the string returned for 0
    is longer than [len(version) + 1 + 8 + 1 + 24]. *)
Lemma format_length_not_bare :
  ¬ ∃ version : string,
      String.length (convert_otel_trace_id_to_xray version 0)
      = String.length version + 1 + 8 + 1 + 24.
Proof.
  intros [version H].
  rewrite length_convert, length_x_ray_trace_id in H.
  simpl in H. lia.
Qed.


(** ** Running the instrumented handler *)

Section Running.

Lemma alter_here {A} (f : A → A) (l : list A) x r :
  alter f (length l) (l ++ x :: r) = l ++ f x :: r.
Proof. induction l as [|y l IH]; simpl; [done | by f_equal]. Qed.

(** The list comprehension over the buckets reads their names and
    stops at the first bucket without one. *)
Lemma comprehension_names (buckets : list (gmap string string)) w :
  comprehension (λ bucket, getitem bucket "Name") buckets w
  = (match mapM (λ bucket : gmap string string, bucket !! "Name")
                buckets with
     | Some names => Returned names
     | None => Raised (KeyError "Name")
     end, w).
Proof.
  revert w. induction buckets as [|b l IH]; intros w; [done |].
  cbn [comprehension mapM]. unfold bind at 1. unfold getitem at 1.
  destruct (b !! "Name") as [name|]; [|done].
  cbn. unfold bind, ret. rewrite IH.
  by destruct (mapM _ l).
Qed.

End Running.

(** Unfolds the computations of the handler on a world and an SDK given
    by their fields. *)
Ltac run_py :=
  cbv [aws_sdk_call_manual_instrumentation
       aws_sdk_call_with_no_instrumentation bind ret raise modify
       try_except_Exception start_as_current_span set_attribute add_event
       record_exception set_status get_current_span counter_add
       s3_logger_info s3_logger_error datetime_now boto3_client
       list_buckets getitem with_spans with_current_span with_counter
       with_log_records with_clock spans current_span counter log_records
       clock client_result client_micros list_buckets_result
       list_buckets_micros].

(** Brings the spans of the final world to the form [old ++ new]. *)
Ltac settle_spans :=
  rewrite ?alter_here; rewrite <- ?app_assoc; cbn [app];
  rewrite ?alter_here.

(** Closes a goal [∃ children finish, run = expected] once both sides
    are in normal form. *)
Ltac finish_run :=
  do 2 eexists;
  unfold root_completed, root_failed, root_escaped, root_initialized,
    starting_record, series, success_labels, error_labels;
  cbn [spans current_span counter log_records clock];
  reflexivity.

Ltac open_world w sdk :=
  destruct w as [sp cur cnt lg clk], sdk as [cr cm lr lm];
  cbn [client_result list_buckets_result spans current_span counter
       log_records clock] in *.

(** The wrapped call returned the names: the handler returns the success
    dict; the root span is completed, one is added to the success series
    and nothing else of the counter changes. *)
Lemma run_completed sdk w names :
  wrapped_call sdk = Returned names →
  ∃ children finish,
    aws_sdk_call_manual_instrumentation sdk w
    = (Returned (PyDict
         [ ("message", PyStr "Listed S3 buckets successfully");
           ("buckets", PyStrList names) ]),
       {| spans := spans w
            ++ root_completed (current_span w) (clock w) finish names
               :: children;
          current_span := current_span w;
          counter :=
            <[success_labels := (series success_labels w + 1)%Z]>
              (counter w);
          log_records := log_records w ++ [starting_record w];
          clock := finish |}).
Proof.
  unfold wrapped_call. intros H.
  destruct (client_result sdk) as [s3|] eqn:Hc; [|done].
  destruct (list_buckets_result sdk) as [response|] eqn:Hl; [|done].
  destruct (response !! "Buckets") as [buckets|] eqn:Hb; [|done].
  destruct (mapM _ buckets) as [names'|] eqn:Hn; [|done].
  injection H as ->.
  open_world w sdk. subst cr lr.
  run_py. rewrite !Hb. run_py. rewrite comprehension_names, Hn. run_py.
  settle_spans. finish_run.
Qed.

(** The wrapped call raised an [Exception]: the handler returns the error
    dict; the root span carries the exception and the error status, one
    is added to the error series, one error record is logged. *)
Lemma run_failed sdk w e :
  wrapped_call sdk = Raised e →
  is_Exception e = true →
  ∃ children finish,
    aws_sdk_call_manual_instrumentation sdk w
    = (Returned (PyDict
         [ ("error", PyStr (str_exc e));
           ("message", PyStr "Failed to list S3 buckets") ]),
       {| spans := spans w
            ++ root_failed (current_span w) (clock w) e :: children;
          current_span := current_span w;
          counter :=
            <[error_labels := (series error_labels w + 1)%Z]> (counter w);
          log_records := log_records w
            ++ [starting_record w;
                (LOG_ERROR, "Error listing S3 buckets: " +:+ str_exc e)];
          clock := finish |}).
Proof.
  unfold wrapped_call. intros H He.
  destruct (client_result sdk) as [s3|e1] eqn:Hc.
  - destruct (list_buckets_result sdk) as [response|e2] eqn:Hl.
    + destruct (response !! "Buckets") as [buckets|] eqn:Hb.
      * destruct (mapM _ buckets) as [names'|] eqn:Hn; [done |].
        injection H as <-.
        open_world w sdk. subst cr lr.
        run_py. rewrite !Hb. run_py. rewrite comprehension_names, Hn.
        run_py. cbn [is_Exception]. settle_spans.
        finish_run.
      * injection H as <-.
        open_world w sdk. subst cr lr.
        run_py. rewrite !Hb. run_py. cbn [is_Exception]. settle_spans.
        finish_run.
    + injection H as ->.
      open_world w sdk. subst cr lr.
      run_py. rewrite He. settle_spans.
      finish_run.
  - injection H as ->.
    open_world w sdk. subst cr.
    run_py. rewrite He. settle_spans.
    finish_run.
Qed.

(** The wrapped call raised something that is no [Exception]: it leaves
    the handler; the root span is ended all the same, the counter is as
    it was. *)
Lemma run_escaped sdk w e :
  wrapped_call sdk = Raised e →
  is_Exception e = false →
  ∃ children finish,
    aws_sdk_call_manual_instrumentation sdk w
    = (Raised e,
       {| spans := spans w
            ++ root_escaped (current_span w) (clock w) :: children;
          current_span := current_span w;
          counter := counter w;
          log_records := log_records w ++ [starting_record w];
          clock := finish |}).
Proof.
  unfold wrapped_call. intros H He.
  destruct (client_result sdk) as [s3|e1] eqn:Hc.
  - destruct (list_buckets_result sdk) as [response|e2] eqn:Hl.
    + destruct (response !! "Buckets") as [buckets|] eqn:Hb.
      * destruct (mapM _ buckets) as [names'|] eqn:Hn; [done |].
        injection H as <-. done.
      * injection H as <-. done.
    + injection H as ->.
      open_world w sdk. subst cr lr.
      run_py. rewrite He. settle_spans.
      finish_run.
  - injection H as ->.
    open_world w sdk. subst cr.
    run_py. rewrite He. settle_spans.
    finish_run.
Qed.

(** The result of the handler, read off the wrapped call. *)
Lemma run_result sdk w :
  fst (aws_sdk_call_manual_instrumentation sdk w)
  = match wrapped_call sdk with
    | Returned names =>
        Returned (PyDict
          [ ("message", PyStr "Listed S3 buckets successfully");
            ("buckets", PyStrList names) ])
    | Raised e =>
        if is_Exception e
        then Returned (PyDict
               [ ("error", PyStr (str_exc e));
                 ("message", PyStr "Failed to list S3 buckets") ])
        else Raised e
    end.
Proof.
  destruct (wrapped_call sdk) as [names|e] eqn:Hcall.
  - destruct (run_completed sdk w names Hcall) as (? & ? & ->). done.
  - destruct (is_Exception e) eqn:He.
    + destruct (run_failed sdk w e Hcall He) as (? & ? & ->). done.
    + destruct (run_escaped sdk w e Hcall He) as (? & ? & ->). done.
Qed.

(** What the wrapped call raises comes from the SDK or is a [KeyError]. *)
Lemma wrapped_call_raises_Exception sdk e :
  outcome_is_Exception (client_result sdk) = true →
  outcome_is_Exception (list_buckets_result sdk) = true →
  wrapped_call sdk = Raised e →
  is_Exception e = true.
Proof.
  unfold wrapped_call. intros Hc Hl H.
  destruct (client_result sdk) as [s3|e1]; [|by injection H as <-].
  destruct (list_buckets_result sdk) as [response|e2];
    [|by injection H as <-].
  destruct (response !! "Buckets") as [buckets|]; [|by injection H as <-].
  destruct (mapM _ buckets); [done | by injection H as <-].
Qed.

(** ** The counter *)

Lemma series_insert labels labels' v w c :
  counter w = <[labels := v]> c →
  series labels' w
  = if decide (labels = labels') then v else default 0%Z (c !! labels').
Proof.
  unfold series. intros ->. rewrite lookup_insert.
  by destruct (decide (labels = labels')).
Qed.

Lemma error_labelled_not_success labels :
  error_labelled labels → success_labels ≠ labels.
Proof. intros H <-. unfold error_labelled in H. done. Qed.

(** ** The instrumented handler: results, counter, root span *)

(** C1. Whatever the SDK does, provided what it raises are instances of
    [Exception], the handler does not raise. It returns a value of
    exactly one of the two shapes, and which one is decided by the
    wrapped call: when the call returned the names, the dict
    [{message, buckets}] with these names; when it raised, the dict
    [{error, message}] with the text of the exception. *)
Theorem invoke_never_raises (sdk : Boto3) (w : World) :
  outcome_is_Exception (client_result sdk) = true →
  outcome_is_Exception (list_buckets_result sdk) = true →
  ∃ result : PyValue,
    fst (aws_sdk_call_manual_instrumentation sdk w) = Returned result
    ∧ match wrapped_call sdk with
      | Returned names =>
          result
          = PyDict
              [ ("message", PyStr "Listed S3 buckets successfully");
                ("buckets", PyStrList names) ]
          ∧ is_success_shape result = true
          ∧ is_error_shape result = false
      | Raised e =>
          result
          = PyDict
              [ ("error", PyStr (str_exc e));
                ("message", PyStr "Failed to list S3 buckets") ]
          ∧ is_error_shape result = true
          ∧ is_success_shape result = false
      end.
Proof.
  intros Hc Hl. rewrite run_result.
  destruct (wrapped_call sdk) as [names|e] eqn:Hcall.
  - eexists. split; [reflexivity |]. repeat split.
  - rewrite (wrapped_call_raises_Exception sdk e Hc Hl Hcall).
    eexists. split; [reflexivity |]. repeat split.
Qed.

Lemma invoke_never_raises_witness :
  ∃ result : PyValue,
    fst (aws_sdk_call_manual_instrumentation
           (sdk_failing (SdkError "access denied")) fresh_world)
      = Returned result
    ∧ match wrapped_call (sdk_failing (SdkError "access denied")) with
      | Returned names =>
          result
          = PyDict
              [ ("message", PyStr "Listed S3 buckets successfully");
                ("buckets", PyStrList names) ]
          ∧ is_success_shape result = true
          ∧ is_error_shape result = false
      | Raised e =>
          result
          = PyDict
              [ ("error", PyStr (str_exc e));
                ("message", PyStr "Failed to list S3 buckets") ]
          ∧ is_error_shape result = true
          ∧ is_success_shape result = false
      end.
Proof.
  apply (invoke_never_raises
           (sdk_failing (SdkError "access denied")) fresh_world);
    reflexivity.
Defined.

(** C2. When the client is built and [list_buckets] returns three
    buckets named [n1], [n2], [n3], the handler returns the success dict
    with the three names in order, the series of [{operation:
    list_buckets}] grows by exactly 1, and no error-labelled series
    changes. *)
Theorem invoke_success_three (sdk : Boto3) (w : World) (s3 : S3Client)
    (response : gmap string (list (gmap string string)))
    (b1 b2 b3 : gmap string string) (n1 n2 n3 : string) :
  client_result sdk = Returned s3 →
  list_buckets_result sdk = Returned response →
  response !! "Buckets" = Some [b1; b2; b3] →
  b1 !! "Name" = Some n1 →
  b2 !! "Name" = Some n2 →
  b3 !! "Name" = Some n3 →
  let w' := snd (aws_sdk_call_manual_instrumentation sdk w) in
  fst (aws_sdk_call_manual_instrumentation sdk w)
    = Returned (PyDict
        [ ("message", PyStr "Listed S3 buckets successfully");
          ("buckets", PyStrList [n1; n2; n3]) ])
  ∧ series success_labels w' = (series success_labels w + 1)%Z
  ∧ ∀ labels, error_labelled labels → series labels w' = series labels w.
Proof.
  intros Hc Hl Hb H1 H2 H3.
  assert (wrapped_call sdk = Returned [n1; n2; n3]) as Hcall.
  { unfold wrapped_call. rewrite Hc, Hl, Hb. cbn. by rewrite H1, H2, H3. }
  destruct (run_completed sdk w _ Hcall) as (children & finish & ->).
  cbn [fst snd]. split; [done |]. split.
  - erewrite series_insert by reflexivity. by rewrite decide_True.
  - intros labels Hlabels. erewrite series_insert by reflexivity.
    rewrite decide_False; [done |].
    by apply error_labelled_not_success.
Qed.

Lemma invoke_success_three_witness :
  let sdk := sdk_listing ["alpha"; "beta"; "gamma"] in
  let w' := snd (aws_sdk_call_manual_instrumentation sdk fresh_world) in
  fst (aws_sdk_call_manual_instrumentation sdk fresh_world)
    = Returned (PyDict
        [ ("message", PyStr "Listed S3 buckets successfully");
          ("buckets", PyStrList ["alpha"; "beta"; "gamma"]) ])
  ∧ series success_labels w' = (series success_labels fresh_world + 1)%Z
  ∧ ∀ labels,
      error_labelled labels → series labels w' = series labels fresh_world.
Proof.
  apply (invoke_success_three
           (sdk_listing ["alpha"; "beta"; "gamma"]) fresh_world
           S3ClientHandle
           {[ "Buckets" := bucket_named <$> ["alpha"; "beta"; "gamma"] ]}
           (bucket_named "alpha") (bucket_named "beta")
           (bucket_named "gamma") "alpha" "beta" "gamma");
    vm_compute; reflexivity.
Defined.

(** C3. When the client is built and [list_buckets] raises an
    [Exception] whose text is "access denied", the handler returns
    [{error: "access denied", message: "Failed to list S3 buckets"}], the
    series of [{operation: list_buckets, status: error}] grows by exactly
    1 and no other series changes, and the root span has the status
    [ERROR] with the description "access denied". *)
Theorem invoke_access_denied (sdk : Boto3) (w : World) (s3 : S3Client)
    (e : PyExc) :
  client_result sdk = Returned s3 →
  list_buckets_result sdk = Raised e →
  is_Exception e = true →
  str_exc e = "access denied" →
  let w' := snd (aws_sdk_call_manual_instrumentation sdk w) in
  fst (aws_sdk_call_manual_instrumentation sdk w)
    = Returned (PyDict
        [ ("error", PyStr "access denied");
          ("message", PyStr "Failed to list S3 buckets") ])
  ∧ series error_labels w' = (series error_labels w + 1)%Z
  ∧ (∀ labels, labels ≠ error_labels → series labels w' = series labels w)
  ∧ ∃ root : Span,
      spans w' !! length (spans w) = Some root
      ∧ span_name root = "aws_s3_list_operation"
      ∧ span_status root
        = {| status_code := ERROR;
             status_description := Some "access denied" |}.
Proof.
  intros Hc Hl He Hstr.
  assert (wrapped_call sdk = Raised e) as Hcall.
  { unfold wrapped_call. by rewrite Hc, Hl. }
  destruct (run_failed sdk w _ Hcall He) as (children & finish & ->).
  cbn [fst snd spans]. rewrite Hstr.
  split; [done |]. split; [|split].
  - erewrite series_insert by reflexivity. by rewrite decide_True.
  - intros labels Hlabels. erewrite series_insert by reflexivity.
    by rewrite decide_False.
  - eexists. split; [by apply list_lookup_middle |].
    split; [reflexivity |].
    cbn [root_failed span_status span_ended span_with_status].
    by rewrite Hstr.
Qed.

Lemma invoke_access_denied_witness :
  let sdk := sdk_failing (SdkError "access denied") in
  let w' := snd (aws_sdk_call_manual_instrumentation sdk fresh_world) in
  fst (aws_sdk_call_manual_instrumentation sdk fresh_world)
    = Returned (PyDict
        [ ("error", PyStr "access denied");
          ("message", PyStr "Failed to list S3 buckets") ])
  ∧ series error_labels w' = (series error_labels fresh_world + 1)%Z
  ∧ (∀ labels,
       labels ≠ error_labels → series labels w' = series labels fresh_world)
  ∧ ∃ root : Span,
      spans w' !! length (spans fresh_world) = Some root
      ∧ span_name root = "aws_s3_list_operation"
      ∧ span_status root
        = {| status_code := ERROR;
             status_description := Some "access denied" |}.
Proof.
  apply (invoke_access_denied
           (sdk_failing (SdkError "access denied")) fresh_world
           S3ClientHandle (SdkError "access denied"));
    reflexivity.
Defined.

(** C10. When the wrapped call raises, at whichever phase and whatever
    the exception, the root span has neither the attribute
    [operation.success] nor [operation.total_duration_ms], it has no
    event "Operation completed successfully", and the series of
    [{operation: list_buckets}] is what it was. *)
Theorem failure_has_no_success_effect (sdk : Boto3) (w : World)
    (e : PyExc) :
  wrapped_call sdk = Raised e →
  let w' := snd (aws_sdk_call_manual_instrumentation sdk w) in
  series success_labels w' = series success_labels w
  ∧ ∃ root : Span,
      spans w' !! length (spans w) = Some root
      ∧ span_name root = "aws_s3_list_operation"
      ∧ span_attributes root !! "operation.success" = None
      ∧ span_attributes root !! "operation.total_duration_ms" = None
      ∧ has_event "Operation completed successfully" root = false.
Proof.
  intros Hcall. destruct (is_Exception e) eqn:He.
  - destruct (run_failed sdk w _ Hcall He) as (children & finish & ->).
    cbn [snd spans]. split.
    + erewrite series_insert by reflexivity. by rewrite decide_False.
    + eexists. split; [by apply list_lookup_middle |].
      repeat split; reflexivity.
  - destruct (run_escaped sdk w _ Hcall He) as (children & finish & ->).
    cbn [snd spans]. split; [done |].
    eexists. split; [by apply list_lookup_middle |].
    repeat split; reflexivity.
Qed.

Lemma failure_has_no_success_effect_witness :
  let sdk := sdk_listing ["alpha"] in
  let broken :=
    {| client_result := client_result sdk;
       client_micros := client_micros sdk;
       list_buckets_result := Returned {[ "Buckets" := [ ∅ ] ]};
       list_buckets_micros := list_buckets_micros sdk |} in
  let w' := snd (aws_sdk_call_manual_instrumentation broken fresh_world) in
  series success_labels w' = series success_labels fresh_world
  ∧ ∃ root : Span,
      spans w' !! length (spans fresh_world) = Some root
      ∧ span_name root = "aws_s3_list_operation"
      ∧ span_attributes root !! "operation.success" = None
      ∧ span_attributes root !! "operation.total_duration_ms" = None
      ∧ has_event "Operation completed successfully" root = false.
Proof.
  apply (failure_has_no_success_effect _ fresh_world (KeyError "Name")).
  vm_compute. reflexivity.
Defined.

(** ** The handler without instrumentation *)




(** ** Every span that is started is ended once *)

Section Balanced.

Lemma end_calls_alter f i w :
  (∀ s, span_end_calls (f s) = span_end_calls s) →
  end_calls (with_spans (alter f i) w) = end_calls w.
Proof.
  intros Hf. unfold end_calls. cbn [spans with_spans].
  rewrite (list_fmap_alter span_end_calls f id)
    by (apply Forall_forall; intros s _; apply Hf).
  by apply list_alter_id.
Qed.

Lemma balanced_ret {A} (a : A) : balanced (ret a).
Proof. intros w. exists 0. by rewrite app_nil_r. Qed.

Lemma balanced_raise {A} e : balanced (@raise A e).
Proof. intros w. exists 0. by rewrite app_nil_r. Qed.

(** A step that leaves the [end()] counts and the current span alone. *)
Lemma balanced_silent {A} (m : Py A) :
  (∀ w, end_calls (snd (m w)) = end_calls w
        ∧ current_span (snd (m w)) = current_span w) →
  balanced m.
Proof.
  intros H w. destruct (H w) as [He Hc].
  exists 0. by rewrite app_nil_r.
Qed.

Lemma balanced_bind {A B} (m : Py A) (k : A → Py B) :
  balanced m → (∀ a, balanced (k a)) → balanced (bind m k).
Proof.
  intros Hm Hk w. unfold bind.
  destruct (Hm w) as (n1 & E1 & C1).
  destruct (m w) as [[a|e] w1]; cbn [snd] in *.
  - destruct (Hk a w1) as (n2 & E2 & C2).
    exists (n1 + n2).
    by rewrite E2, E1, C2, C1, replicate_add, app_assoc.
  - by exists n1.
Qed.

Lemma balanced_try_except_Exception {A} (body : Py A) handler :
  balanced body → (∀ e, balanced (handler e)) →
  balanced (try_except_Exception body handler).
Proof.
  intros Hb Hh w. unfold try_except_Exception.
  destruct (Hb w) as (n1 & E1 & C1).
  destruct (body w) as [[a|e] w1]; cbn [snd] in *.
  - by exists n1.
  - destruct (is_Exception e); [|by exists n1].
    destruct (Hh e w1) as (n2 & E2 & C2).
    exists (n1 + n2).
    by rewrite E2, E1, C2, C1, replicate_add, app_assoc.
Qed.

(** The [with] block ends its span on every way out: one span more
    than its body started, and the previous span is current again. *)
Lemma start_as_current_span_ends {A} name (body : SpanId → Py A) :
  (∀ span, balanced (body span)) →
  ∀ w, ∃ started : nat,
    end_calls (snd (start_as_current_span name body w))
      = end_calls w ++ replicate (S started) 1
    ∧ current_span (snd (start_as_current_span name body w))
      = current_span w.
Proof.
  intros Hbody w. unfold start_as_current_span.
  set (entered := with_current_span _ (with_spans _ w)).
  destruct (Hbody (length (spans w)) entered) as (n & E & _).
  destruct (body (length (spans w)) entered) as [result w1].
  cbn [snd] in *. exists n. split; [|done].
  unfold end_calls in *. subst entered.
  cbn [spans with_spans with_current_span] in *.
  rewrite (list_fmap_alter span_end_calls span_ended S)
    by (by apply Forall_forall).
  rewrite E, fmap_app. cbn [fmap list_fmap].
  rewrite <- app_assoc. cbn [app].
  rewrite <- (length_fmap span_end_calls (spans w)).
  by rewrite alter_here.
Qed.

Lemma balanced_start_as_current_span {A} name (body : SpanId → Py A) :
  (∀ span, balanced (body span)) →
  balanced (start_as_current_span name body).
Proof.
  intros Hbody w.
  destruct (start_as_current_span_ends name body Hbody w) as (n & H).
  by exists (S n).
Qed.

Lemma balanced_set_attribute span key v :
  balanced (set_attribute span key v).
Proof.
  apply balanced_silent. intros w. split; [|done].
  by apply end_calls_alter.
Qed.

Lemma balanced_add_event span name attributes :
  balanced (add_event span name attributes).
Proof.
  apply balanced_silent. intros w. split; [|done].
  by apply end_calls_alter.
Qed.

Lemma balanced_record_exception span e :
  balanced (record_exception span e).
Proof.
  apply balanced_silent. intros w. split; [|done].
  by apply end_calls_alter.
Qed.

Lemma balanced_set_status span code description :
  balanced (set_status span code description).
Proof.
  apply balanced_silent. intros w. split; [|done].
  by apply end_calls_alter.
Qed.

Lemma balanced_counter_add amount labels :
  balanced (counter_add amount labels).
Proof. by apply balanced_silent. Qed.

Lemma balanced_s3_logger_info msg : balanced (s3_logger_info msg).
Proof. by apply balanced_silent. Qed.

Lemma balanced_s3_logger_error msg : balanced (s3_logger_error msg).
Proof. by apply balanced_silent. Qed.

Lemma balanced_datetime_now : balanced datetime_now.
Proof. by apply balanced_silent. Qed.

Lemma balanced_get_current_span : balanced get_current_span.
Proof. by apply balanced_silent. Qed.

Lemma balanced_boto3_client sdk : balanced (boto3_client sdk).
Proof. by apply balanced_silent. Qed.

Lemma balanced_list_buckets sdk s3 : balanced (list_buckets sdk s3).
Proof. by apply balanced_silent. Qed.

Lemma balanced_getitem {V} (d : gmap string V) key :
  balanced (getitem d key).
Proof.
  unfold getitem. destruct (d !! key);
    [apply balanced_ret | apply balanced_raise].
Qed.

Lemma balanced_comprehension {A B} (f : A → Py B) l :
  (∀ x, balanced (f x)) → balanced (comprehension f l).
Proof.
  intros Hf. induction l as [|x l IH]; cbn [comprehension].
  - apply balanced_ret.
  - apply balanced_bind; [apply Hf |]. intros y.
    apply balanced_bind; [apply IH |]. intros ys. apply balanced_ret.
Qed.

End Balanced.

Create HintDb balanced.
#[export] Hint Resolve balanced_ret balanced_raise balanced_bind
  balanced_try_except_Exception balanced_start_as_current_span
  balanced_set_attribute balanced_add_event balanced_record_exception
  balanced_set_status balanced_counter_add balanced_s3_logger_info
  balanced_s3_logger_error balanced_datetime_now balanced_get_current_span
  balanced_boto3_client balanced_list_buckets balanced_getitem
  balanced_comprehension : balanced.

(** Takes a computation apart along its binds and blocks. *)
Ltac solve_balanced :=
  repeat (intros; cbv beta zeta;
          first [ apply balanced_bind
                | apply balanced_try_except_Exception
                | apply balanced_start_as_current_span
                | apply balanced_comprehension
                | solve [auto with balanced] ]).

(** C8. Whatever the SDK does, each span started during an invocation,
    the root span and every child span, has received exactly one [end()]
    when the handler is left, by a return or by an exception; the spans
    that existed before have the count they had, and the span that was
    current before is current again. *)
Theorem spans_closed_exactly_once (sdk : Boto3) (w : World) :
  let w' := snd (aws_sdk_call_manual_instrumentation sdk w) in
  ∃ started : nat,
    end_calls w' = end_calls w ++ replicate (S started) 1
    ∧ current_span w' = current_span w.
Proof.
  cbv zeta. unfold aws_sdk_call_manual_instrumentation.
  unfold bind at 1, datetime_now at 1. cbv beta iota.
  unfold bind at 1, get_current_span at 1. cbv beta iota zeta.
  unfold bind at 1, s3_logger_info at 1, modify at 1. cbv beta iota.
  match goal with
  | |- context [start_as_current_span ?name ?body ?w1] =>
      destruct (start_as_current_span_ends name body) with (w := w1)
        as (started & E & C); [solve_balanced |];
      exists started; split; [exact E | exact C]
  end.
Qed.

(** * Further properties of the code *)

(** ** The trace-id formatter beyond the 128-bit claims *)

Section TraceIdFormatterMore.
Import PyStr PyFormat Decode PyStrFacts PyFormatFacts.

Local Open Scope N_scope.

(** The digits of a sum of widths: the high digits are those of the
    quotient. *)
Lemma zero_padded_hex_add a b n :
  zero_padded_hex (a + b) n
  = zero_padded_hex a (n / 16 ^ N.of_nat b) +:+ zero_padded_hex b n.
Proof.
  induction a as [|a IH]; [done |].
  cbn [Nat.add zero_padded_hex]. rewrite app_cons, IH. f_equal. f_equal.
  rewrite N.Div0.div_div, <- N.pow_add_r. do 3 f_equal. lia.
Qed.

Lemma count_dash_hex_digits_fuel fuel n :
  count "-" (hex_digits_fuel fuel n) = 0%nat.
Proof.
  revert n. induction fuel as [|fuel IH]; intros n; [done |].
  cbn [hex_digits_fuel]. destruct (n <? 16).
  - by rewrite count_cons_ne by apply hex_digit_not_dash.
  - rewrite count_app, IH.
    by rewrite count_cons_ne by apply hex_digit_not_dash.
Qed.

Lemma count_dash_zero_fill width s :
  count "-" (zero_fill width s) = count "-" s.
Proof.
  unfold zero_fill. rewrite count_app, count_repeat_ne; done.
Qed.

(** The sign is the only dash [format_032x] ever writes. *)
Lemma count_dash_format_032x (x : Z) :
  count "-" (format_032x x) = if (x <? 0)%Z then 1%nat else 0%nat.
Proof.
  unfold format_032x. destruct (x <? 0)%Z.
  - rewrite count_cons_eq, count_dash_zero_fill.
    unfold hex_digits. by rewrite count_dash_hex_digits_fuel.
  - rewrite count_dash_zero_fill.
    unfold hex_digits. by rewrite count_dash_hex_digits_fuel.
Qed.

(** A number of at least [16^k] has more than [k] digits. *)
Lemma length_hex_digits_fuel fuel k n :
  16 ^ N.of_nat k ≤ n → n < 16 ^ N.of_nat (S fuel) →
  (k < String.length (hex_digits_fuel (S fuel) n))%nat.
Proof.
  revert k n. induction fuel as [|fuel IH]; intros k n Hk Hf.
  - change (16 ^ N.of_nat 1) with 16 in Hf.
    cbn [hex_digits_fuel]. rewrite (proj2 (N.ltb_lt _ _) Hf).
    destruct k as [|k]; [cbn; lia |].
    rewrite pow16_succ in Hk.
    assert (1 ≤ 16 ^ N.of_nat k) by (apply N.lt_pred_le, N.neq_0_lt_0,
      N.pow_nonzero; lia).
    lia.
  - change (hex_digits_fuel (S (S fuel)) n)
      with (if n <? 16 then String (hex_digit n) EmptyString
            else hex_digits_fuel (S fuel) (n / 16)
                   +:+ String (hex_digit (n mod 16)) EmptyString).
    destruct (N.ltb_spec n 16) as [Hlt|Hge].
    + destruct k as [|k]; [cbn; lia |].
      rewrite pow16_succ in Hk.
      assert (1 ≤ 16 ^ N.of_nat k) by (apply N.lt_pred_le, N.neq_0_lt_0,
        N.pow_nonzero; lia).
      lia.
    + rewrite length_app, length_cons. cbn [String.length].
      destruct k as [|k]; [lia |].
      assert (k < String.length (hex_digits_fuel (S fuel) (n / 16)))%nat;
        [|lia].
      apply IH; [|by apply div16_lt].
      rewrite pow16_succ in Hk.
      apply N.div_le_lower_bound; lia.
Qed.

Lemma length_hex_digits k n :
  16 ^ N.of_nat k ≤ n → (k < String.length (hex_digits n))%nat.
Proof.
  intros H. apply length_hex_digits_fuel; [done |].
  apply hex_digits_fuel_enough.
Qed.

(** Two strings that start with pieces of the same length agree piece by
    piece. *)
Lemma str_app_eq_length (a a' r r' : string) :
  String.length a = String.length a' →
  a +:+ r = a' +:+ r' → a = a' ∧ r = r'.
Proof.
  intros Hlen H. split.
  - rewrite <- (take_app_length a r), <- (take_app_length a' r').
    by rewrite H, Hlen.
  - rewrite <- (drop_app_length a r), <- (drop_app_length a' r').
    by rewrite H, Hlen.
Qed.

Lemma str_cons_inj c (a b : string) : String c a = String c b → a = b.
Proof. intros H. by injection H. Qed.

Lemma take_app_exact n (a b : string) :
  String.length a = n → take n (a +:+ b) = a.
Proof. intros <-. apply take_app_length. Qed.

Lemma drop_app_exact n (a b : string) :
  String.length a = n → drop n (a +:+ b) = b.
Proof. intros <-. apply drop_app_length. Qed.

End TraceIdFormatterMore.

(** X1. On the 128-bit range the formatter is injective: two trace ids
    with the same returned string are the same id, whatever the
    version. *)
Theorem trace_id_injective (version : string) (x y : Z) :
  (0 ≤ x < 2 ^ 128)%Z →
  (0 ≤ y < 2 ^ 128)%Z →
  convert_otel_trace_id_to_xray version x
    = convert_otel_trace_id_to_xray version y →
  x = y.
Proof.
  intros Hx Hy H. unfold convert_otel_trace_id_to_xray in H.
  apply (inj (String.app json_prefix)) in H.
  rewrite !x_ray_trace_id_unfold, !PyStrFacts.app_assoc in H.
  apply (inj (String.app version)) in H.
  rewrite !PyStrFacts.app_cons in H. apply str_cons_inj in H.
  rewrite !PyStrFacts.app_assoc in H.
  pose proof (PyFormatFacts.format_032x_in_range x Hx) as Hfx.
  pose proof (PyFormatFacts.format_032x_in_range y Hy) as Hfy.
  apply str_app_eq_length in H as [Hhigh H].
  2:{ rewrite !PyStrFacts.length_take, Hfx, Hfy,
        !PyFormatFacts.length_zero_padded_hex. done. }
  rewrite !PyStrFacts.app_cons in H. apply str_cons_inj in H.
  apply str_app_eq_length in H as [Hlow _].
  2:{ rewrite !PyStrFacts.length_drop, Hfx, Hfy,
        !PyFormatFacts.length_zero_padded_hex. done. }
  assert (PyFormat.format_032x x = PyFormat.format_032x y) as Hhex.
  { rewrite <- (PyStrFacts.take_drop 8 (PyFormat.format_032x x)),
      <- (PyStrFacts.take_drop 8 (PyFormat.format_032x y)).
    by rewrite Hhigh, Hlow. }
  rewrite Hfx, Hfy in Hhex. apply (f_equal Decode.hex_value) in Hhex.
  rewrite !PyFormatFacts.hex_value_zero_padded_hex in Hhex
    by (change (16 ^ N.of_nat 32)%N with (Z.to_N (2 ^ 128)); lia).
  injection Hhex as Hhex. lia.
Qed.

Lemma trace_id_injective_witness : 255%Z = 255%Z.
Proof.
  apply (trace_id_injective "1" 255 255).
  - split; [lia | reflexivity].
  - split; [lia | reflexivity].
  - reflexivity.
Defined.

(** X2. On the 128-bit range the two segments of the id are the two
    halves of the number: the 8 digits of the first read as the high 32
    bits, [x / 2^96], the 24 digits of the second as the low 96 bits,
    [x mod 2^96]. *)
Theorem segments_are_high_and_low_bits (version : string) (x : Z) :
  (0 ≤ x < 2 ^ 128)%Z →
  ∃ first rest : string,
    x_ray_trace_id version x
      = version +:+ "-" +:+ first +:+ "-" +:+ rest
    ∧ String.length first = 8 ∧ String.length rest = 24
    ∧ Decode.hex_value first = Some (Z.to_N x / 2 ^ 96)%N
    ∧ Decode.hex_value rest = Some (Z.to_N x mod 2 ^ 96)%N.
Proof.
  intros Hx.
  pose proof (PyFormatFacts.format_032x_in_range x Hx) as Hfmt.
  assert (Z.to_N x < 2 ^ 128)%N as Hn.
  { change (2 ^ 128)%N with (Z.to_N (2 ^ 128)). lia. }
  change 32 with (8 + 24) in Hfmt.
  rewrite zero_padded_hex_add in Hfmt.
  change (16 ^ N.of_nat 24)%N with (2 ^ 96)%N in Hfmt.
  exists (Decode.zero_padded_hex 8 (Z.to_N x / 2 ^ 96)),
         (Decode.zero_padded_hex 24 (Z.to_N x)).
  split; [|split; [|split; [|split]]].
  - rewrite x_ray_trace_id_unfold, Hfmt.
    rewrite take_app_exact, drop_app_exact
      by apply PyFormatFacts.length_zero_padded_hex.
    done.
  - apply PyFormatFacts.length_zero_padded_hex.
  - apply PyFormatFacts.length_zero_padded_hex.
  - apply PyFormatFacts.hex_value_zero_padded_hex.
    apply N.Div0.div_lt_upper_bound.
    change (2 ^ 96 * 16 ^ N.of_nat 8)%N with (2 ^ 128)%N. done.
  - unfold Decode.hex_value.
    rewrite PyFormatFacts.hex_value_from_zero_padded_hex. done.
Qed.

Lemma segments_are_high_and_low_bits_witness :
  ∃ first rest : string,
    x_ray_trace_id "1" 0x5759e988bd862e3fe1be46a994272793
      = "1" +:+ "-" +:+ first +:+ "-" +:+ rest
    ∧ String.length first = 8 ∧ String.length rest = 24
    ∧ Decode.hex_value first
      = Some (Z.to_N 0x5759e988bd862e3fe1be46a994272793 / 2 ^ 96)%N
    ∧ Decode.hex_value rest
      = Some (Z.to_N 0x5759e988bd862e3fe1be46a994272793 mod 2 ^ 96)%N.
Proof.
  apply (segments_are_high_and_low_bits "1"
           0x5759e988bd862e3fe1be46a994272793).
  split; [lia | reflexivity].
Defined.

(** X3. The formatter does not check its argument: for a number of
    [2^128] or more the first segment still has 8 characters and the
    second has more than 24, so the id is longer than a vendor trace
    id. *)
Theorem oversized_trace_id_overflows (version : string) (x : Z) :
  (2 ^ 128 ≤ x)%Z →
  ∃ first rest : string,
    x_ray_trace_id version x
      = version +:+ "-" +:+ first +:+ "-" +:+ rest
    ∧ String.length first = 8 ∧ 24 < String.length rest.
Proof.
  intros Hx.
  exists (PyStr.take 8 (PyFormat.format_032x x)),
         (PyStr.drop 8 (PyFormat.format_032x x)).
  assert (32 < String.length (PyFormat.format_032x x)) as Hlen.
  { unfold PyFormat.format_032x.
    destruct (Z.ltb_spec x 0) as [?|_]; [lia |].
    unfold PyFormat.zero_fill.
    rewrite PyStrFacts.length_app, PyStrFacts.length_repeat.
    assert (32 < String.length (PyFormat.hex_digits (Z.abs_N x))); [|lia].
    apply length_hex_digits.
    change (16 ^ N.of_nat 32)%N with (Z.to_N (2 ^ 128)). lia. }
  split; [by rewrite x_ray_trace_id_unfold |].
  rewrite PyStrFacts.length_take, PyStrFacts.length_drop. lia.
Qed.

Lemma oversized_trace_id_overflows_witness :
  ∃ first rest : string,
    x_ray_trace_id "1" (2 ^ 128)
      = "1" +:+ "-" +:+ first +:+ "-" +:+ rest
    ∧ String.length first = 8 ∧ 24 < String.length rest.
Proof.
  apply (oversized_trace_id_overflows "1" (2 ^ 128)). reflexivity.
Defined.

(** X4. The returned string has two dashes more than the version for
    every number that is not negative, in or beyond the 128-bit range; a
    negative number brings its sign into the first segment and gives
    three. *)
Theorem dashes_of_returned_string (version : string) (x : Z) :
  PyStr.count "-" (convert_otel_trace_id_to_xray version x)
  = PyStr.count "-" version + (if (x <? 0)%Z then 3 else 2).
Proof.
  unfold convert_otel_trace_id_to_xray.
  rewrite !PyStrFacts.count_app, count_dash_x_ray_trace_id,
    count_dash_format_032x.
  destruct count_dash_json_wrapper as [-> ->].
  destruct (x <? 0)%Z; lia.
Qed.

(** ** The handlers that catch nothing *)

(** Unfolds the other handlers as [run_py] does the instrumented one. *)
Ltac run_more :=
  unfold aws_sdk_call_with_auto_instrumentation,
    aws_sdk_call_with_instrumentation;
  run_py.

(** The result of the auto-instrumented handler, read off the wrapped
    call. *)
Lemma auto_result sdk w :
  fst (aws_sdk_call_with_auto_instrumentation sdk w)
  = match wrapped_call sdk with
    | Returned names =>
        Returned (PyDict
          [ ("message", PyStr "Listed S3 buckets successfully");
            ("buckets", PyStrList names) ])
    | Raised e => Raised e
    end.
Proof.
  unfold wrapped_call. open_world w sdk.
  destruct cr as [s3|e1]; [|done].
  destruct lr as [response|e2]; [|done].
  run_more. destruct (response !! "Buckets") as [buckets|]; [|done].
  run_more. rewrite comprehension_names.
  by destruct (mapM _ buckets).
Qed.

(** X5. The instrumented handler and the auto-instrumented one answer
    alike: what the second returns the first returns too, and an
    [Exception] the second lets through is what the first turns into its
    error dict, with the text of that exception. *)
Theorem manual_agrees_with_auto (sdk : Boto3) (w w' : World) :
  fst (aws_sdk_call_manual_instrumentation sdk w')
  = match fst (aws_sdk_call_with_auto_instrumentation sdk w) with
    | Returned payload => Returned payload
    | Raised e =>
        if is_Exception e
        then Returned (PyDict
               [ ("error", PyStr (str_exc e));
                 ("message", PyStr "Failed to list S3 buckets") ])
        else Raised e
    end.
Proof.
  rewrite run_result, auto_result. by destruct (wrapped_call sdk).
Qed.

(** X6. The auto-instrumented handler writes no span, no counter series
    and no log record whatever the SDK does, and it raises exactly when
    the wrapped call does, with the same exception: a failure of the
    SDK, or the [KeyError] of a response without ['Buckets'] or of a
    bucket without ['Name']. *)
Theorem auto_instrumentation_lets_errors_through (sdk : Boto3) (w : World)
    (e : PyExc) :
  same_telemetry w (snd (aws_sdk_call_with_auto_instrumentation sdk w))
  ∧ (fst (aws_sdk_call_with_auto_instrumentation sdk w) = Raised e
     ↔ wrapped_call sdk = Raised e).
Proof.
  split.
  - open_world w sdk. unfold same_telemetry.
    destruct cr as [s3|e1]; [|done].
    destruct lr as [response|e2]; [|done].
    run_more. destruct (response !! "Buckets") as [buckets|]; [|done].
    run_more. rewrite comprehension_names.
    by destruct (mapM _ buckets).
  - rewrite auto_result.
    destruct (wrapped_call sdk) as [names|e']; [done |].
    split; congruence.
Qed.

(** X7. The handler without instrumentation never reads the response:
    it returns [None] when both SDK calls return, a malformed response
    included, it raises what the first failing call raises, and it
    writes no telemetry in either case. *)
Theorem no_instrumentation_never_answers (sdk : Boto3) (w : World) :
  fst (aws_sdk_call_with_no_instrumentation sdk w)
    = match sdk_calls sdk with
      | Returned _ => Returned PyNone
      | Raised e => Raised e
      end
  ∧ same_telemetry w (snd (aws_sdk_call_with_no_instrumentation sdk w)).
Proof.
  unfold sdk_calls, same_telemetry. open_world w sdk.
  destruct cr as [s3|e1]; [|done].
  destruct lr as [response|e2]; done.
Qed.

(** The handler with one span: its result and its span, for every
    behaviour of the SDK. *)
Lemma with_instrumentation_run version instance trace_id_of sdk w :
  ∃ span finish,
    aws_sdk_call_with_instrumentation version instance trace_id_of sdk w
    = (match wrapped_call sdk with
       | Returned names =>
           Returned (PyDict
             [ ("message", PyStr "Listed S3 buckets successfully");
               ("buckets", PyStrList names);
               ("traceId",
                PyStr (convert_otel_trace_id_to_xray version
                         (trace_id_of (length (spans w)))
                       +:+ testingId instance)) ])
       | Raised e => Raised e
       end,
       {| spans := spans w ++ [span];
          current_span := current_span w;
          counter := counter w;
          log_records := log_records w;
          clock := finish |})
    ∧ span_name span = "list_s3_buckets"
    ∧ span_parent span = current_span w
    ∧ span_end_calls span = 1.
Proof.
  unfold wrapped_call. open_world w sdk.
  destruct cr as [s3|e1].
  - destruct lr as [response|e2].
    + destruct (response !! "Buckets") as [buckets|] eqn:Hb.
      * run_more. rewrite !Hb. run_more. rewrite comprehension_names.
        destruct (mapM _ buckets) as [names|];
          run_more; settle_spans; do 2 eexists; repeat split.
      * run_more. rewrite !Hb. run_more. settle_spans.
        do 2 eexists; repeat split.
    + run_more. settle_spans. do 2 eexists; repeat split.
  - run_more. settle_spans. do 2 eexists; repeat split.
Qed.

(** X8. With [INSTANCE_ID] unset or empty, a version without dash and a
    128-bit trace id, the [traceId] field of the answer of the handler
    with one span is a literal that reads back as the trace id of that
    span; the names are listed beside it. *)
Theorem with_instrumentation_trace_id_reads_back (version : string)
    (instance : option string) (trace_id_of : SpanId → Z) (sdk : Boto3)
    (w : World) (names : list string) :
  wrapped_call sdk = Returned names →
  testingId instance = EmptyString →
  PyStr.count "-" version = 0 →
  (0 ≤ trace_id_of (length (spans w)) < 2 ^ 128)%Z →
  ∃ literal first rest : string,
    fst (aws_sdk_call_with_instrumentation version instance trace_id_of
           sdk w)
      = Returned (PyDict
          [ ("message", PyStr "Listed S3 buckets successfully");
            ("buckets", PyStrList names);
            ("traceId", PyStr literal) ])
    ∧ Decode.xray_segments literal = Some [version; first; rest]
    ∧ Decode.hex_value (first +:+ rest)
      = Some (Z.to_N (trace_id_of (length (spans w)))).
Proof.
  intros Hcall Hid Hv Hx.
  destruct (with_instrumentation_run version instance trace_id_of sdk w)
    as (span & finish & -> & _).
  rewrite Hcall, Hid, PyStrFacts.app_empty_r. cbn [fst].
  set (x := trace_id_of (length (spans w))) in *.
  pose proof (PyFormatFacts.format_032x_in_range x Hx) as Hfmt.
  exists (convert_otel_trace_id_to_xray version x),
         (PyStr.take 8 (PyFormat.format_032x x)),
         (PyStr.drop 8 (PyFormat.format_032x x)).
  split; [done |]. split.
  - apply xray_segments_convert; [done |].
    rewrite Hfmt. apply PyFormatFacts.count_dash_zero_padded_hex.
  - rewrite PyStrFacts.take_drop, Hfmt.
    apply PyFormatFacts.hex_value_zero_padded_hex.
    change (16 ^ N.of_nat 32)%N with (Z.to_N (2 ^ 128)). lia.
Qed.

Lemma with_instrumentation_trace_id_reads_back_witness :
  ∃ literal first rest : string,
    fst (aws_sdk_call_with_instrumentation "1" None (λ _, 255%Z)
           (sdk_listing ["alpha"; "beta"]) fresh_world)
      = Returned (PyDict
          [ ("message", PyStr "Listed S3 buckets successfully");
            ("buckets", PyStrList ["alpha"; "beta"]);
            ("traceId", PyStr literal) ])
    ∧ Decode.xray_segments literal = Some ["1"; first; rest]
    ∧ Decode.hex_value (first +:+ rest)
      = Some (Z.to_N ((λ _ : nat, 255%Z) (length (spans fresh_world)))).
Proof.
  apply (with_instrumentation_trace_id_reads_back "1" None (λ _, 255%Z)
           (sdk_listing ["alpha"; "beta"]) fresh_world ["alpha"; "beta"]).
  - vm_compute. reflexivity.
  - reflexivity.
  - reflexivity.
  - split; [lia | reflexivity].
Defined.

(** X9. The handler with one span catches nothing: it raises exactly
    when the wrapped call does, with the same exception; and whatever
    happens it has started one span, a child of the span that was
    current, ended it once, made the previous span current again, and
    left the counter and the log alone. *)
Theorem with_instrumentation_ends_its_span (version : string)
    (instance : option string) (trace_id_of : SpanId → Z) (sdk : Boto3)
    (w : World) (e : PyExc) :
  let run :=
    aws_sdk_call_with_instrumentation version instance trace_id_of sdk w in
  (fst run = Raised e ↔ wrapped_call sdk = Raised e)
  ∧ (∃ span : Span,
       spans (snd run) = spans w ++ [span]
       ∧ span_name span = "list_s3_buckets"
       ∧ span_parent span = current_span w
       ∧ span_end_calls span = 1)
  ∧ current_span (snd run) = current_span w
  ∧ counter (snd run) = counter w
  ∧ log_records (snd run) = log_records w.
Proof.
  cbv zeta.
  destruct (with_instrumentation_run version instance trace_id_of sdk w)
    as (span & finish & -> & Hname & Hparent & Hend).
  cbn [fst snd spans current_span counter log_records].
  split; [|split; [by exists span | done]].
  destruct (wrapped_call sdk) as [names|e']; [done |].
  split; congruence.
Qed.

(** ** More on the instrumented handler *)

(** X10. Every invocation adds to at most one series of the counter, and
    then exactly 1: to the success series when the wrapped call returned,
    to the error series when it raised an [Exception]; when what it
    raised is not caught, nothing is counted. *)
Theorem one_increment_per_outcome (sdk : Boto3) (w : World)
    (labels : gmap string string) :
  series labels (snd (aws_sdk_call_manual_instrumentation sdk w))
  = (series labels w
     + if decide (counted_series sdk = Some labels) then 1 else 0)%Z.
Proof.
  unfold counted_series.
  destruct (wrapped_call sdk) as [names|e] eqn:Hcall.
  - destruct (run_completed sdk w names Hcall) as (? & ? & ->).
    cbn [snd]. erewrite series_insert by reflexivity.
    destruct (decide (success_labels = labels)) as [<-|Hne].
    + by rewrite decide_True.
    + rewrite decide_False by congruence. unfold series. lia.
  - destruct (is_Exception e) eqn:He.
    + destruct (run_failed sdk w e Hcall He) as (? & ? & ->).
      cbn [snd]. erewrite series_insert by reflexivity.
      destruct (decide (error_labels = labels)) as [<-|Hne].
      * by rewrite decide_True.
      * rewrite decide_False by congruence. unfold series. lia.
    + destruct (run_escaped sdk w e Hcall He) as (? & ? & ->).
      cbn [snd]. rewrite decide_False by done. unfold series.
      cbn [counter]. lia.
Qed.

(** X11. The handler keeps the records logged before it and appends its
    own: the starting record, at level INFO, with the id of the span that
    was current, and after it one record at level ERROR with the text of
    the exception exactly when it caught one. *)
Theorem log_records_of_invocation (sdk : Boto3) (w : World) :
  log_records (snd (aws_sdk_call_manual_instrumentation sdk w))
  = log_records w
    ++ (INFO,
        "Starting manual instrumentation for AWS SDK call Parent span: "
        +:+ str_int (span_id_of (current_span w)))
       :: match wrapped_call sdk with
          | Returned _ => []
          | Raised e =>
              if is_Exception e
              then [ (LOG_ERROR,
                      "Error listing S3 buckets: " +:+ str_exc e) ]
              else []
          end.
Proof.
  destruct (wrapped_call sdk) as [names|e] eqn:Hcall.
  - by destruct (run_completed sdk w names Hcall) as (? & ? & ->).
  - destruct (is_Exception e) eqn:He.
    + by destruct (run_failed sdk w e Hcall He) as (? & ? & ->).
    + by destruct (run_escaped sdk w e Hcall He) as (? & ? & ->).
Qed.



(** X13. After an invocation that caught an [Exception], raised at any
    phase, by the SDK or by a missing key, the root span is ended once,
    records that exception and no other, and has the status ERROR with
    the text of the exception; the [error] field of the answer is the
    same text. *)
Theorem failed_root_span (sdk : Boto3) (w : World) (e : PyExc) :
  wrapped_call sdk = Raised e →
  is_Exception e = true →
  let w' := snd (aws_sdk_call_manual_instrumentation sdk w) in
  fst (aws_sdk_call_manual_instrumentation sdk w)
    = Returned (PyDict
        [ ("error", PyStr (str_exc e));
          ("message", PyStr "Failed to list S3 buckets") ])
  ∧ ∃ root : Span,
      spans w' !! length (spans w) = Some root
      ∧ span_end_calls root = 1
      ∧ span_exceptions root = [e]
      ∧ span_status root
        = {| status_code := ERROR;
             status_description := Some (str_exc e) |}.
Proof.
  intros Hcall He.
  destruct (run_failed sdk w e Hcall He) as (children & finish & ->).
  cbn [fst snd spans]. split; [reflexivity |].
  eexists. split; [by apply list_lookup_middle |].
  repeat split; reflexivity.
Qed.

Lemma failed_root_span_witness :
  let sdk := sdk_failing (SdkError "throttled") in
  let w' := snd (aws_sdk_call_manual_instrumentation sdk fresh_world) in
  fst (aws_sdk_call_manual_instrumentation sdk fresh_world)
    = Returned (PyDict
        [ ("error", PyStr (str_exc (SdkError "throttled")));
          ("message", PyStr "Failed to list S3 buckets") ])
  ∧ ∃ root : Span,
      spans w' !! length (spans fresh_world) = Some root
      ∧ span_end_calls root = 1
      ∧ span_exceptions root = [SdkError "throttled"]
      ∧ span_status root
        = {| status_code := ERROR;
             status_description := Some (str_exc (SdkError "throttled")) |}.
Proof.
  apply (failed_root_span (sdk_failing (SdkError "throttled")) fresh_world
           (SdkError "throttled")); reflexivity.
Defined.

(** X14. However many buckets the response lists, none included, when
    each of them has a name the answer lists exactly these names, one
    per bucket and in the order of the response. *)
Theorem invoke_lists_every_bucket (sdk : Boto3) (w : World)
    (s3 : S3Client) (response : gmap string (list (gmap string string)))
    (buckets : list (gmap string string)) (names : list string) :
  client_result sdk = Returned s3 →
  list_buckets_result sdk = Returned response →
  response !! "Buckets" = Some buckets →
  Forall2 (λ bucket name, bucket !! "Name" = Some name) buckets names →
  fst (aws_sdk_call_manual_instrumentation sdk w)
    = Returned (PyDict
        [ ("message", PyStr "Listed S3 buckets successfully");
          ("buckets", PyStrList names) ])
  ∧ length names = length buckets.
Proof.
  intros Hc Hl Hb Hnames. split.
  - assert (mapM (λ bucket : gmap string string, bucket !! "Name") buckets
            = Some names) as Hm by (by apply mapM_Some_2).
    rewrite run_result. unfold wrapped_call. by rewrite Hc, Hl, Hb, Hm.
  - symmetry. by eapply Forall2_length.
Qed.

Lemma invoke_lists_every_bucket_witness :
  fst (aws_sdk_call_manual_instrumentation
         (sdk_listing ["alpha"; "beta"]) fresh_world)
    = Returned (PyDict
        [ ("message", PyStr "Listed S3 buckets successfully");
          ("buckets", PyStrList ["alpha"; "beta"]) ])
  ∧ length ["alpha"; "beta"]
    = length [bucket_named "alpha"; bucket_named "beta"].
Proof.
  apply (invoke_lists_every_bucket
           (sdk_listing ["alpha"; "beta"]) fresh_world S3ClientHandle
           {[ "Buckets" := bucket_named <$> ["alpha"; "beta"] ]}
           [bucket_named "alpha"; bucket_named "beta"]
           ["alpha"; "beta"]).
  - reflexivity.
  - reflexivity.
  - vm_compute. reflexivity.
  - repeat constructor.
Defined.

(** X15. A response without the key ['Buckets'] is a failure like any
    other: the handler returns the error dict whose [error] is the text
    of the [KeyError], ['Buckets'] in quotes, and counts it in the error
    series. *)
Theorem response_without_Buckets (sdk : Boto3) (w : World) (s3 : S3Client)
    (response : gmap string (list (gmap string string))) :
  client_result sdk = Returned s3 →
  list_buckets_result sdk = Returned response →
  response !! "Buckets" = None →
  let w' := snd (aws_sdk_call_manual_instrumentation sdk w) in
  fst (aws_sdk_call_manual_instrumentation sdk w)
    = Returned (PyDict
        [ ("error", PyStr "'Buckets'");
          ("message", PyStr "Failed to list S3 buckets") ])
  ∧ series error_labels w' = (series error_labels w + 1)%Z
  ∧ series success_labels w' = series success_labels w.
Proof.
  intros Hc Hl Hb.
  assert (wrapped_call sdk = Raised (KeyError "Buckets")) as Hcall.
  { unfold wrapped_call. by rewrite Hc, Hl, Hb. }
  destruct (run_failed sdk w _ Hcall eq_refl) as (? & ? & ->).
  cbn [fst snd]. split; [done |]. split.
  - erewrite series_insert by reflexivity. by rewrite decide_True.
  - erewrite series_insert by reflexivity. by rewrite decide_False.
Qed.

Lemma response_without_Buckets_witness :
  let sdk :=
    {| client_result := Returned S3ClientHandle; client_micros := 10;
       list_buckets_result := Returned ∅; list_buckets_micros := 250 |} in
  let w' := snd (aws_sdk_call_manual_instrumentation sdk fresh_world) in
  fst (aws_sdk_call_manual_instrumentation sdk fresh_world)
    = Returned (PyDict
        [ ("error", PyStr "'Buckets'");
          ("message", PyStr "Failed to list S3 buckets") ])
  ∧ series error_labels w' = (series error_labels fresh_world + 1)%Z
  ∧ series success_labels w' = series success_labels fresh_world.
Proof.
  apply (response_without_Buckets _ fresh_world S3ClientHandle ∅);
    reflexivity.
Defined.

(** X16. One bucket without the key ['Name'] fails the whole listing,
    wherever it stands and whatever the other buckets hold: the handler
    returns the error dict whose [error] is ['Name'] in quotes, no name
    is returned, and the invocation is counted in the error series. *)
Theorem bucket_without_Name (sdk : Boto3) (w : World) (s3 : S3Client)
    (response : gmap string (list (gmap string string)))
    (buckets : list (gmap string string)) :
  client_result sdk = Returned s3 →
  list_buckets_result sdk = Returned response →
  response !! "Buckets" = Some buckets →
  Exists (λ bucket, bucket !! "Name" = None) buckets →
  let w' := snd (aws_sdk_call_manual_instrumentation sdk w) in
  fst (aws_sdk_call_manual_instrumentation sdk w)
    = Returned (PyDict
        [ ("error", PyStr "'Name'");
          ("message", PyStr "Failed to list S3 buckets") ])
  ∧ series error_labels w' = (series error_labels w + 1)%Z
  ∧ series success_labels w' = series success_labels w.
Proof.
  intros Hc Hl Hb Hmissing.
  assert (wrapped_call sdk = Raised (KeyError "Name")) as Hcall.
  { assert (mapM (λ bucket : gmap string string, bucket !! "Name") buckets
            = None) as Hm by (by apply mapM_None_2).
    unfold wrapped_call. by rewrite Hc, Hl, Hb, Hm. }
  destruct (run_failed sdk w _ Hcall eq_refl) as (? & ? & ->).
  cbn [fst snd]. split; [done |]. split.
  - erewrite series_insert by reflexivity. by rewrite decide_True.
  - erewrite series_insert by reflexivity. by rewrite decide_False.
Qed.

Lemma bucket_without_Name_witness :
  let sdk :=
    {| client_result := Returned S3ClientHandle; client_micros := 10;
       list_buckets_result :=
         Returned {[ "Buckets" :=
                       [ bucket_named "alpha";
                         {[ "CreationDate" := "2024-01-01" ]};
                         bucket_named "gamma" ] ]};
       list_buckets_micros := 250 |} in
  let w' := snd (aws_sdk_call_manual_instrumentation sdk fresh_world) in
  fst (aws_sdk_call_manual_instrumentation sdk fresh_world)
    = Returned (PyDict
        [ ("error", PyStr "'Name'");
          ("message", PyStr "Failed to list S3 buckets") ])
  ∧ series error_labels w' = (series error_labels fresh_world + 1)%Z
  ∧ series success_labels w' = series success_labels fresh_world.
Proof.
  apply (bucket_without_Name _ fresh_world S3ClientHandle
           {[ "Buckets" :=
                [ bucket_named "alpha";
                  {[ "CreationDate" := "2024-01-01" ]};
                  bucket_named "gamma" ] ]}
           [ bucket_named "alpha";
             {[ "CreationDate" := "2024-01-01" ]};
             bucket_named "gamma" ]).
  - reflexivity.
  - reflexivity.
  - vm_compute. reflexivity.
  - apply Exists_cons_tl, Exists_cons_hd. vm_compute. reflexivity.
Defined.

(** Closes the goal of [span_tree_of_invocation] once the spans of the
    final world are in the form [old ++ new]. *)
Ltac finish_tree :=
  cbn [snd spans]; do 2 eexists; split; [reflexivity |];
  repeat split; repeat constructor.

(** X17. The spans an invocation starts form one tree and tell how far
    it got: the root span is a child of the span that was current, every
    other span is a child of the root, and the other spans are, by name
    and in order, the phases entered: client setup alone when the client
    cannot be built, then the API call, then the response processing
    only when the response has its ['Buckets']. *)
Theorem span_tree_of_invocation (sdk : Boto3) (w : World) :
  let w' := snd (aws_sdk_call_manual_instrumentation sdk w) in
  ∃ (root : Span) (children : list Span),
    spans w' = spans w ++ root :: children
    ∧ span_name root = "aws_s3_list_operation"
    ∧ span_parent root = current_span w
    ∧ span_name <$> children = phases_reached sdk
    ∧ Forall (λ child, span_parent child = Some (length (spans w)))
        children.
Proof.
  cbv zeta. unfold phases_reached. open_world w sdk.
  destruct cr as [s3|e1].
  - destruct lr as [response|e2].
    + destruct (response !! "Buckets") as [buckets|] eqn:Hb.
      * run_py. rewrite !Hb. run_py. rewrite comprehension_names.
        destruct (mapM _ buckets) as [names|];
          run_py; cbn [is_Exception]; settle_spans; finish_tree.
      * run_py. rewrite !Hb. run_py. cbn [is_Exception].
        settle_spans. finish_tree.
    + run_py. destruct (is_Exception e2); settle_spans; finish_tree.
  - run_py. destruct (is_Exception e1); settle_spans; finish_tree.
Qed.
